(** * DiffHedge front end: transaction assembly and signing coordinator

    A shallow embedding of the script of [frontend/src/App.vue] (the variant
    that assembles PSBTs with bitcoinjs-lib): the push-event handler, the
    create-and-deposit flow, the single-contract signing path
    [signAndBroadcast] and the batch path [claimAll].

    The reactive objects become records, every [async] function becomes a
    computation in a state-and-exception monad over the application state,
    and every call that leaves the page (wallet extension, backend, alert,
    timer) is recorded in a trace.  bitcoinjs-lib, the wallet extensions and
    the backend are not part of the repository: they are interfaces whose
    answers are parameters of the development. *)

From stdpp Require Import base strings list pretty.
From Stdlib Require Import ZArith Lia.
From Stdlib.Strings Require Import Byte.

(** ** JavaScript values *)

Module Js.

(** The values that reach the properties modelled below.  Numbers are the
    integral ones (identifiers, satoshi amounts) and [NaN]. *)
Inductive Val :=
| Undefined
| Null
| Num (n : Z)
| NaN
| Str (s : string).

(** [if (v)] *)
Definition truthy (v : Val) : bool :=
  match v with
  | Undefined | Null | NaN => false
  | Num n => negb (n =? 0)%Z
  | Str s => negb (String.eqb s "")
  end.

(** [a === b] *)
Definition strict_eq (a b : Val) : bool :=
  match a, b with
  | Undefined, Undefined => true
  | Null, Null => true
  | Num x, Num y => (x =? y)%Z
  | Str x, Str y => String.eqb x y
  | _, _ => false
  end.

(** [`${v}`] *)
Definition display (v : Val) : string :=
  match v with
  | Undefined => "undefined"
  | Null => "null"
  | Num n => pretty n
  | NaN => "NaN"
  | Str s => s
  end.

(** [if (s)] on a string: only the empty string is falsy. *)
Definition nonempty (s : string) : bool := negb (String.eqb s "").

(** Results of arithmetic: an integer or [NaN]. *)
Inductive Number :=
| Int (n : Z)
| NotANumber.

(** [ToNumber] on a property that is either absent or an integer. *)
Definition ToNumber (v : option Z) : Number :=
  match v with
  | None => NotANumber
  | Some n => Int n
  end.

(** [a * b] *)
Definition mul (a b : Number) : Number :=
  match a, b with
  | Int x, Int y => Int (x * y)
  | _, _ => NotANumber
  end.

Inductive ExnKind := Error | TypeError | RangeError.

(** A thrown exception; [message] is what [e.message] reads. *)
Record Exn := throw_new { kind : ExnKind; message : string }.

(** [BigInt(x)] *)
Definition BigInt (x : Number) : Exn + Z :=
  match x with
  | Int n => inr n
  | NotANumber =>
      inl (throw_new RangeError
        "The number NaN cannot be converted to a BigInt because it is not an integer")
  end.

(** [xs[i]] for a computed index: [undefined] outside [0 .. length). *)
Definition index {A} (xs : list A) (i : Z) : option A :=
  if (i <? 0)%Z then None else xs !! Z.to_nat i.

End Js.

Abbreviation Exn := Js.Exn.
Abbreviation bytes := (list Byte.byte).

(** ** Transactions and PSBT documents (the data bitcoinjs-lib exposes) *)

Module TxIn.
Record t := mk {
  hash : bytes;
  index : Z;
  script : bytes;
  sequence : Z;
  witness : list bytes
}.
Definition set_witness (w : list bytes) (i : t) : t :=
  mk (hash i) (index i) (script i) (sequence i) w.
End TxIn.

Module TxOut.
Record t := mk { script : bytes; value : Z }.
End TxOut.

Module Tx.
Record t := mk {
  version : Z;
  locktime : Z;
  ins : list TxIn.t;
  outs : list TxOut.t
}.
Definition set_ins (l : list TxIn.t) (tx : t) : t :=
  mk (version tx) (locktime tx) l (outs tx).
End Tx.

Module TapLeafScript.
(** [script] and [controlBlock] are read out of a witness stack by a
    computed index, so either may be [undefined] ([None]). *)
Record t := mk {
  leafVersion : Z;
  script : option bytes;
  controlBlock : option bytes
}.
End TapLeafScript.

Module TapScriptSig.
Record t := mk { pubkey : bytes; signature : bytes; leafHash : bytes }.
End TapScriptSig.

Module PsbtInput.
Record t := mk {
  hash : bytes;
  index : Z;
  witnessUtxo_script : bytes;
  witnessUtxo_value : Z;
  tapLeafScript : list TapLeafScript.t;
  tapScriptSig : list TapScriptSig.t;
  sighashType : option Z;
  finalScriptWitness : option (list bytes)
}.
Definition add_tapScriptSig (sigs : list TapScriptSig.t) (i : t) : t :=
  mk (hash i) (index i) (witnessUtxo_script i) (witnessUtxo_value i)
     (tapLeafScript i) (tapScriptSig i ++ sigs) (sighashType i)
     (finalScriptWitness i).
Definition set_final (w : list bytes) (i : t) : t :=
  mk (hash i) (index i) (witnessUtxo_script i) (witnessUtxo_value i)
     (tapLeafScript i) (tapScriptSig i) (sighashType i) (Some w).
(** Two inputs spend the same previous output. *)
Definition same_prevout (a b : t) : Prop :=
  hash a = hash b ∧ index a = index b.
End PsbtInput.

Module PsbtOutput.
Inductive t :=
| to_address (address : string) (value : Z)
| to_script (script : bytes) (value : Z).
End PsbtOutput.

Module Psbt.
Record t := mk { inputs : list PsbtInput.t; outputs : list PsbtOutput.t }.
(** [new bitcoin.Psbt({ network: bitcoin.networks.testnet })] *)
Definition new : t := mk [] [].
End Psbt.

(** ** The interfaces outside the repository *)

(** bitcoinjs-lib and [Buffer], as far as the script calls them.  Anything
    that may throw returns [Exn + _]; the three [_rejects] fields are the
    library's own validation of a PSBT update ([None]: accepted). *)
Record Lib := {
  Transaction_fromHex : string → Exn + Tx.t;
  Transaction_toHex : Tx.t → string;
  address_toOutputScript : string → Exn + bytes;
  address_fromOutputScript : bytes → Exn + string;
  Psbt_toHex : Psbt.t → string;
  Psbt_fromHex : string → Exn + Psbt.t;
  addInput_rejects : Psbt.t → PsbtInput.t → option Exn;
  updateInput_rejects : Psbt.t → Z → list TapScriptSig.t → option Exn;
  addOutput_rejects : Psbt.t → PsbtOutput.t → option Exn;
  finalizeInput : PsbtInput.t → Exn + list bytes;
  extractTransaction : Psbt.t → Exn + Tx.t;
  Buffer_from_hex : string → bytes
}.

(** A wallet extension object ([window.unisat], [window.okxwallet.bitcoin]). *)
Record WalletApi := {
  sendBitcoin : string → Z → Exn + string;
  signPsbt : string → Exn + string;
  pushTx : string → Exn + string
}.

Inductive Provider := UniSat | OKX.

Record Window := {
  unisat : option WalletApi;
  okxwallet_bitcoin : option WalletApi
}.

(** One element of [data.psbt_inputs] in the answer of [/claim_all]. *)
Module InputData.
Record leaf := mk_leaf { leafVersion : Z; script : string; controlBlock : string }.
Record sig := mk_sig { pubkey : string; signature : string; leafHash : string }.
Record t := mk {
  index : Z;
  scriptPubKey : string;
  value : Z;
  tapLeafScript : option leaf;
  oracleSig : option sig
}.
End InputData.

Record CreateResponse := {
  create_status : string;
  contract_id : Js.Val;
  deposit_address : string;
  create_json : string (* JSON.stringify(data) *)
}.

Record ClaimResponse := {
  claim_status : string;
  claim_message : string;
  unsigned_tx_hex : string;
  psbt_inputs : option (list InputData.t)
}.

(** The backend: the parsed body of each answer, or the exception raised by
    [fetch] or [res.json()]. *)
Record Backend := {
  create_contract : string → Z → string → Exn + CreateResponse;
  cancel_contract : Js.Val → Exn + unit;
  claim_all : string → Exn + ClaimResponse
}.

(** ** Application state *)

Module Wallet.
Record t := mk {
  connected : bool;
  address : string;
  publicKey : string;
  name : string
}.
End Wallet.

Module Form.
Record t := mk { amount : Z; direction : string }.
End Form.

Module Contract.
(** [currentContract].  The object is created with [id], [address],
    [status], [tx_hex] and [logs]; [signAndBroadcast] also reads
    [currentContract.amount], a property that the literal does not
    declare: [amount] is [None] while that property is [undefined]. *)
Record t := mk {
  id : Js.Val;
  address : string;
  status : string;
  tx_hex : string;
  logs : list string;
  amount : option Z
}.
Definition set_id (v : Js.Val) (c : t) : t :=
  mk v (address c) (status c) (tx_hex c) (logs c) (amount c).
Definition set_address (v : string) (c : t) : t :=
  mk (id c) v (status c) (tx_hex c) (logs c) (amount c).
Definition set_status (v : string) (c : t) : t :=
  mk (id c) (address c) v (tx_hex c) (logs c) (amount c).
Definition set_tx_hex (v : string) (c : t) : t :=
  mk (id c) (address c) (status c) v (logs c) (amount c).
Definition set_logs (v : list string) (c : t) : t :=
  mk (id c) (address c) (status c) (tx_hex c) v (amount c).
(** [reactive({ id: null, address: '', status: '', tx_hex: '', logs: [] })] *)
Definition initial : t := mk Js.Null "" "" "" [] None.
End Contract.

Inductive WalletRequest :=
| SendBitcoin (address : string) (amountSats : Z)
| SignPsbt (psbtHex : string)
| PushTx (txHex : string).

Inductive Request :=
| PostCreateContract (user_pubkey : string) (amount : Z) (direction : string)
| PostCancelContract (contract_id : Js.Val)
| PostClaimAll (user_pubkey : string).

Inductive Callback := MatchContract.

(** What an operation does outside the page. *)
Inductive Effect :=
| Alert (msg : string)
| WalletCall (via : Provider) (call : WalletRequest)
| Fetch (request : Request)
| SetTimeout (callback : Callback) (ms : Z).

(** The module-level variables of the script, and the trace of effects so
    far (most recent first). *)
Record State := {
  wallet : Wallet.t;
  contractForm : Form.t;
  currentContract : Contract.t;
  currentProvider : option Provider;
  trace : list Effect
}.

Definition with_contract (f : Contract.t → Contract.t) (s : State) : State :=
  {| wallet := wallet s; contractForm := contractForm s;
     currentContract := f (currentContract s);
     currentProvider := currentProvider s; trace := trace s |}.

Definition with_effect (e : Effect) (s : State) : State :=
  {| wallet := wallet s; contractForm := contractForm s;
     currentContract := currentContract s;
     currentProvider := currentProvider s; trace := e :: trace s |}.

(** ** The monad of the [async] functions: state and exceptions *)

Definition M (A : Type) : Type := State → (Exn + A) * State.

#[export] Instance M_ret : MRet M := λ A (x : A) s, (inr x, s).

#[export] Instance M_bind : MBind M := λ A B (f : A → M B) (m : M A) s,
  match m s with
  | (inr x, s') => f x s'
  | (inl e, s') => (inl e, s')
  end.

(** [throw e] *)
Definition throw {A} (e : Exn) : M A := λ s, (inl e, s).

(** [try { body } catch (e) { handler }] *)
Definition try_catch {A} (body : M A) (handler : Exn → M A) : M A := λ s,
  match body s with
  | (inl e, s') => handler e s'
  | (inr x, s') => (inr x, s')
  end.

(** The result of a call that may throw. *)
Definition lift {A} (r : Exn + A) : M A := λ s, (r, s).

Definition gets {A} (f : State → A) : M A := λ s, (inr (f s), s).

Definition modify_contract (f : Contract.t → Contract.t) : M unit :=
  λ s, (inr tt, with_contract f s).

Definition emit (e : Effect) : M unit := λ s, (inr tt, with_effect e s).

(** Reading a property of [undefined]. *)
Definition undefined_property {A} (prop : string) : M A :=
  throw (Js.throw_new Js.TypeError
    ("Cannot read properties of undefined (reading '" +:+ prop +:+ "')")).

Definition defined {A} (prop : string) (o : option A) : M A :=
  match o with
  | Some x => mret x
  | None => undefined_property prop
  end.

(** The final state of running an operation. *)
Definition run {A} (m : M A) (s : State) : State := snd (m s).

(** Calls into the library that may throw are sequenced in [Exn + _]. *)
#[export] Instance Exn_ret : MRet (sum Exn) := λ A (x : A), inr x.

#[export] Instance Exn_bind : MBind (sum Exn) := λ A B (f : A → Exn + B) m,
  match m with
  | inl e => inl e
  | inr x => f x
  end.

Definition defined_or_TypeError {A} (prop : string) (o : option A) : Exn + A :=
  match o with
  | Some x => inr x
  | None =>
      inl (Js.throw_new Js.TypeError
        ("Cannot read properties of undefined (reading '" +:+ prop +:+ "')"))
  end.

(** ** Witness codec: the insertion loop of [signAndBroadcast] *)

(** [for (let i = 0; i < witness.length - 2; i++)] with [n] iterations left:
    the first zero-length element receives [userSig] and the loop breaks.
    The result is the stack and the flag [inserted]. *)
Fixpoint insert_loop (witness : list bytes) (userSig : bytes) (i n : nat)
  : list bytes * bool :=
  match n with
  | O => (witness, false)
  | S n' =>
      match witness !! i with
      | Some [] => (<[i := userSig]> witness, true)
      | _ => insert_loop witness userSig (S i) n'
      end
  end.

Definition insert_signature (witness : list bytes) (userSig : bytes)
  : list bytes * bool :=
  insert_loop witness userSig 0 (Z.to_nat (Z.of_nat (length witness) - 2)).

(** [witness[i] = userSig] writes through [tx.ins[0].witness]: the array is
    shared with the transaction that is serialised afterwards. *)
Definition store_witness (tx : Tx.t) (witness : list bytes) : Tx.t :=
  match Tx.ins tx with
  | [] => tx
  | in0 :: rest => Tx.set_ins (TxIn.set_witness witness in0 :: rest) tx
  end.

(** ** PSBT builder *)

Section Builder.
Context (lib : Lib).

(** [psbt.addInput(input)]: appended unless the library rejects it. *)
Definition Psbt_addInput (psbt : Psbt.t) (input : PsbtInput.t) : Exn + Psbt.t :=
  match addInput_rejects lib psbt input with
  | Some e => inl e
  | None => inr (Psbt.mk (Psbt.inputs psbt ++ [input]) (Psbt.outputs psbt))
  end.

(** [psbt.updateInput(i, { tapScriptSig: sigs })]: input [i] must exist. *)
Definition Psbt_updateInput (psbt : Psbt.t) (i : Z) (sigs : list TapScriptSig.t)
  : Exn + Psbt.t :=
  match Js.index (Psbt.inputs psbt) i with
  | None => inl (Js.throw_new Js.Error ("No input #" +:+ pretty i))
  | Some input =>
      match updateInput_rejects lib psbt i sigs with
      | Some e => inl e
      | None =>
          inr (Psbt.mk
            (<[Z.to_nat i := PsbtInput.add_tapScriptSig sigs input]> (Psbt.inputs psbt))
            (Psbt.outputs psbt))
      end
  end.

(** [psbt.addOutput(output)] *)
Definition Psbt_addOutput (psbt : Psbt.t) (output : PsbtOutput.t) : Exn + Psbt.t :=
  match addOutput_rejects lib psbt output with
  | Some e => inl e
  | None => inr (Psbt.mk (Psbt.inputs psbt) (Psbt.outputs psbt ++ [output]))
  end.

(** [psbt.finalizeAllInputs()]: every input in turn, throwing at the first
    one that the library cannot finalize. *)
Fixpoint finalize_inputs (inputs : list PsbtInput.t) : Exn + list PsbtInput.t :=
  match inputs with
  | [] => inr []
  | input :: rest =>
      w ← finalizeInput lib input;
      rest' ← finalize_inputs rest;
      mret (PsbtInput.set_final w input :: rest')
  end.

Definition Psbt_finalizeAllInputs (psbt : Psbt.t) : Exn + Psbt.t :=
  inputs ← finalize_inputs (Psbt.inputs psbt);
  mret (Psbt.mk inputs (Psbt.outputs psbt)).

(** The single input of [signAndBroadcast] (step 3). *)
Definition single_input (in0 : TxIn.t) (scriptPubKey : bytes) (value : Z)
    (script controlBlock : option bytes) : PsbtInput.t :=
  {| PsbtInput.hash := TxIn.hash in0;
     PsbtInput.index := TxIn.index in0;
     PsbtInput.witnessUtxo_script := scriptPubKey;
     PsbtInput.witnessUtxo_value := value;
     PsbtInput.tapLeafScript :=
       [ {| TapLeafScript.leafVersion := 0xc0%Z;
            TapLeafScript.script := script;
            TapLeafScript.controlBlock := controlBlock |} ];
     PsbtInput.tapScriptSig := [];
     PsbtInput.sighashType := Some 0%Z (* Transaction.SIGHASH_DEFAULT *);
     PsbtInput.finalScriptWitness := None |}.

(** The input that [claimAll] adds for one metadata record (step 2.A). *)
Definition claim_input (txin : TxIn.t) (inputData : InputData.t)
    (leaf : InputData.leaf) : PsbtInput.t :=
  {| PsbtInput.hash := TxIn.hash txin;
     PsbtInput.index := TxIn.index txin;
     PsbtInput.witnessUtxo_script :=
       Buffer_from_hex lib (InputData.scriptPubKey inputData);
     PsbtInput.witnessUtxo_value := InputData.value inputData;
     PsbtInput.tapLeafScript :=
       [ {| TapLeafScript.leafVersion := InputData.leafVersion leaf;
            TapLeafScript.script :=
              Some (Buffer_from_hex lib (InputData.script leaf));
            TapLeafScript.controlBlock :=
              Some (Buffer_from_hex lib (InputData.controlBlock leaf)) |} ];
     PsbtInput.tapScriptSig := [];
     PsbtInput.sighashType := None;
     PsbtInput.finalScriptWitness := None |}.

(** The oracle's signature record (step 2.B). *)
Definition oracle_sig (o : InputData.sig) : TapScriptSig.t :=
  {| TapScriptSig.pubkey := Buffer_from_hex lib (InputData.pubkey o);
     TapScriptSig.signature := Buffer_from_hex lib (InputData.signature o);
     TapScriptSig.leafHash := Buffer_from_hex lib (InputData.leafHash o) |}.

(** One iteration of [for (const inputData of data.psbt_inputs)]. *)
Definition claim_add_input (tx : Tx.t) (psbt : Psbt.t) (inputData : InputData.t)
  : Exn + Psbt.t :=
  let i := InputData.index inputData in
  txin ← defined_or_TypeError "hash" (Js.index (Tx.ins tx) i);
  leaf ← defined_or_TypeError "leafVersion" (InputData.tapLeafScript inputData);
  psbt ← Psbt_addInput psbt (claim_input txin inputData leaf);
  o ← defined_or_TypeError "pubkey" (InputData.oracleSig inputData);
  Psbt_updateInput psbt i [oracle_sig o].

Fixpoint claim_add_inputs (tx : Tx.t) (psbt : Psbt.t) (psbt_inputs : list InputData.t)
  : Exn + Psbt.t :=
  match psbt_inputs with
  | [] => inr psbt
  | inputData :: rest =>
      psbt ← claim_add_input tx psbt inputData;
      claim_add_inputs tx psbt rest
  end.

(** [tx.outs.forEach(out => psbt.addOutput({ script, value }))] *)
Fixpoint claim_add_outputs (psbt : Psbt.t) (outs : list TxOut.t) : Exn + Psbt.t :=
  match outs with
  | [] => inr psbt
  | out :: rest =>
      psbt ← Psbt_addOutput psbt
               (PsbtOutput.to_script (TxOut.script out) (TxOut.value out));
      claim_add_outputs psbt rest
  end.

End Builder.

(** One message of the push channel, after [JSON.parse]. *)
Module WsEvent.
Record t := mk {
  type : string;
  contract_id : Js.Val;
  result : string;
  status : string;
  tx_hex : string;
  message : string
}.
End WsEvent.

(** ** The operations of the script *)

Section Script.
(** [clock n] is what [new Date().toLocaleTimeString()] returns when the
    log already holds [n] entries. *)
Context (clock : nat → string).
Context (lib : Lib) (window : Window) (backend : Backend).

(** The entry [`[${timestamp}] ${msg}`] written on top of [n] older ones. *)
Definition log_line (n : nat) (msg : string) : string :=
  "[" +:+ clock n +:+ "] " +:+ msg.

(** [log(msg)]: [currentContract.logs.unshift(`[${timestamp}] ${msg}`)] *)
Definition log (msg : string) : M unit :=
  modify_contract (λ c,
    Contract.set_logs
      (log_line (length (Contract.logs c)) msg :: Contract.logs c) c).

(** The state after [log(msg)]. *)
Definition logged (msg : string) (s : State) : State := run (log msg) s.

Definition alert (msg : string) : M unit := emit (Alert msg).

Definition fetch {A} (request : Request) (answer : Exn + A) : M A :=
  emit (Fetch request);; lift answer.

Definition provider_object (p : Provider) : option WalletApi :=
  match p with
  | UniSat => unisat window
  | OKX => okxwallet_bitcoin window
  end.

(** [provider.method(...)] on one of the extension objects of [window]. *)
Definition wallet_call (via : Provider) (method : string)
    (call : WalletRequest) (answer : WalletApi → Exn + string) : M string :=
  match provider_object via with
  | None => undefined_property method
  | Some api => emit (WalletCall via call);; lift (answer api)
  end.

(** [window.unisat.signPsbt(psbtHex)] *)
Definition window_unisat_signPsbt (psbtHex : string) : M string :=
  wallet_call UniSat "signPsbt" (SignPsbt psbtHex) (λ api, signPsbt api psbtHex).

(** [window.unisat.pushTx(txHex)] *)
Definition window_unisat_pushTx (txHex : string) : M string :=
  wallet_call UniSat "pushTx" (PushTx txHex) (λ api, pushTx api txHex).

(** [currentProvider.sendBitcoin(address, amount, { feeRate: 1.5 })] *)
Definition currentProvider_sendBitcoin (address : string) (amount : Z) : M string :=
  p ← gets currentProvider;
  match p with
  | None =>
      throw (Js.throw_new Js.TypeError
        "Cannot read properties of null (reading 'sendBitcoin')")
  | Some via =>
      wallet_call via "sendBitcoin" (SendBitcoin address amount)
        (λ api, sendBitcoin api address amount)
  end.


(** *** [ws.onmessage] *)
Definition onmessage (data : WsEvent.t) : M unit :=
  log ("[WS] 收到通知: " +:+ WsEvent.type data +:+ " - ID: "
       +:+ Js.display (WsEvent.contract_id data));;
  c ← gets currentContract;
  if Js.truthy (Contract.id c)
     && Js.strict_eq (WsEvent.contract_id data) (Contract.id c)
  then
    if String.eqb (WsEvent.type data) "MATCHED" then
      modify_contract (Contract.set_status "MATCHED");;
      log "House 已跟單！合約生效中。"
    else if String.eqb (WsEvent.type data) "SETTLED" then
      modify_contract (Contract.set_status (WsEvent.result data));;
      log ("合約已結算: " +:+ WsEvent.result data)
    else if String.eqb (WsEvent.type data) "ACTION_REQUIRED" then
      modify_contract (Contract.set_status (WsEvent.status data));;
      modify_contract (Contract.set_tx_hex (WsEvent.tx_hex data));;
      log ("[需行動] " +:+ WsEvent.message data)
    else mret tt
  else mret tt.

(** *** [createAndDeposit] *)
Definition createAndDeposit_cleanup (e : Exn) : M unit :=
  log ("流程錯誤: " +:+ Js.message e);;
  c ← gets currentContract;
  if Js.truthy (Contract.id c) then
    log "交易失敗，正在清理合約...";;
    try_catch
      (fetch (PostCancelContract (Contract.id c))
             (cancel_contract backend (Contract.id c));;
       log ("合約 ID " +:+ Js.display (Contract.id c) +:+ " 已刪除"))
      (λ cleanupError, log ("清理合約失敗: " +:+ Js.message cleanupError));;
    modify_contract (Contract.set_id Js.Null);;
    modify_contract (Contract.set_address "");;
    modify_contract (Contract.set_status "")
  else mret tt.

Definition createAndDeposit : M unit :=
  w ← gets wallet;
  if negb (Wallet.connected w) then alert "請先連接錢包"
  else
    try_catch
      (log "1. 正在建立合約...";;
       form ← gets contractForm;
       data ← fetch
         (PostCreateContract (Wallet.publicKey w) (Form.amount form)
            (Form.direction form))
         (create_contract backend (Wallet.publicKey w) (Form.amount form)
            (Form.direction form));
       if negb (String.eqb (create_status data) "success") then
         log ("建立失敗: " +:+ create_json data)
       else
         modify_contract (Contract.set_id (contract_id data));;
         modify_contract (Contract.set_address (deposit_address data));;
         modify_contract (Contract.set_status "CREATED");;
         log ("合約建立成功! ID: " +:+ Js.display (contract_id data));;
         log ("請入金到: " +:+ deposit_address data);;
         log ("2. 正在呼叫錢包發送 " +:+ pretty (Form.amount form) +:+ " sats...");;
         c ← gets currentContract;
         txid ← currentProvider_sendBitcoin (Contract.address c) (Form.amount form);
         log ("入金交易已廣播! TXID: " +:+ txid);;
         log "3. 等待交易傳播後自動觸發 Match (3秒)...";;
         emit (SetTimeout MatchContract 3000))
      createAndDeposit_cleanup.

(** *** [signAndBroadcast] *)

(** Steps 1 to 3: parse the partial transaction, read the leaf script and
    control block off its first witness stack, build the PSBT.  None of
    these touches the state; the results are the transaction, that witness
    stack and the PSBT. *)
Definition signAndBroadcast_psbt (c : Contract.t)
  : Exn + (Tx.t * list bytes * Psbt.t) :=
  tx ← Transaction_fromHex lib (Contract.tx_hex c);
  in0 ← defined_or_TypeError "witness" (Tx.ins tx !! 0%nat);
  let witness := TxIn.witness in0 in
  let script := Js.index witness (Z.of_nat (length witness) - 2) in
  let controlBlock := Js.index witness (Z.of_nat (length witness) - 1) in
  value ← Js.BigInt (Js.mul (Js.ToNumber (Contract.amount c)) (Js.Int 2));
  scriptPubKey ←
    match address_toOutputScript lib (Contract.address c) with
    | inr scriptPubKey => inr scriptPubKey
    | inl err =>
        inl (Js.throw_new Js.Error
               ("Invalid address for Testnet: " +:+ Contract.address c))
    end;
  psbt ← Psbt_addInput lib Psbt.new
            (single_input in0 scriptPubKey value script controlBlock);
  out0 ← defined_or_TypeError "script" (Tx.outs tx !! 0%nat);
  address ← address_fromOutputScript lib (TxOut.script out0);
  psbt ← Psbt_addOutput lib psbt
            (PsbtOutput.to_address address (TxOut.value out0));
  mret (tx, witness, psbt).

(** Steps 4 and 5: have the PSBT signed, read the signature back. *)
Definition signAndBroadcast_signature (psbt : Psbt.t) : M bytes :=
  signedPsbtHex ← window_unisat_signPsbt (Psbt_toHex lib psbt);
  signedPsbt ← lift (Psbt_fromHex lib signedPsbtHex);
  input0 ← defined "tapScriptSig" (Psbt.inputs signedPsbt !! 0%nat);
  match PsbtInput.tapScriptSig input0 with
  | [] => throw (Js.throw_new Js.Error "No signature returned from wallet")
  | sig0 :: _ => mret (TapScriptSig.signature sig0)
  end.

(** Steps 6 and 7: fill the placeholder, serialise, broadcast. *)
Definition signAndBroadcast_broadcast (tx : Tx.t) (witness : list bytes)
    (userSig : bytes) : M unit :=
  let '(witness', inserted) := insert_signature witness userSig in
  if negb inserted then
    throw (Js.throw_new Js.Error
      "Could not find placeholder for signature in witness stack")
  else
    let finalTxHex := Transaction_toHex lib (store_witness tx witness') in
    log "簽名完成，正在廣播...";;
    txid ← window_unisat_pushTx finalTxHex;
    log ("廣播成功! TXID: " +:+ txid);;
    modify_contract (Contract.set_status "SETTLED_WIN").

Definition signAndBroadcast : M unit :=
  c ← gets currentContract;
  if negb (Js.nonempty (Contract.tx_hex c)) then alert "No transaction to sign"
  else if negb (Js.nonempty (Contract.address c)) then
    alert "Contract address missing"
  else
    try_catch
      (log "正在請求錢包簽名...";;
       '(tx, witness, psbt) ← lift (signAndBroadcast_psbt c);
       userSig ← signAndBroadcast_signature psbt;
       signAndBroadcast_broadcast tx witness userSig)
      (λ e, log ("簽名/廣播失敗: " +:+ Js.message e)).

(** The states along a run of [signAndBroadcast]: the signature of [psbt]
    has been requested, the broadcast of [tx] has been requested, the run
    has ended in the [catch] block, the run has ended normally. *)
Definition asked (psbt : Psbt.t) (s : State) : State :=
  with_effect (WalletCall UniSat (SignPsbt (Psbt_toHex lib psbt)))
    (logged "正在請求錢包簽名..." s).

Definition pushed (tx : Tx.t) (s : State) : State :=
  with_effect (WalletCall UniSat (PushTx (Transaction_toHex lib tx)))
    (logged "簽名完成，正在廣播..." s).

Definition failed (e : Exn) (s : State) : State :=
  logged ("簽名/廣播失敗: " +:+ Js.message e) s.

Definition settled (txid : string) (s : State) : State :=
  with_contract (Contract.set_status "SETTLED_WIN")
    (logged ("廣播成功! TXID: " +:+ txid) s).

(** *** [claimAll] *)

(** Steps 1 to 3: the PSBT built from the backend's answer. *)
Definition claimAll_build (data : ClaimResponse) : Exn + Psbt.t :=
  tx ← Transaction_fromHex lib (unsigned_tx_hex data);
  psbt_inputs ← match psbt_inputs data with
                | Some l => inr l
                | None =>
                    inl (Js.throw_new Js.TypeError
                           "data.psbt_inputs is not iterable")
                end;
  psbt ← claim_add_inputs lib tx Psbt.new psbt_inputs;
  claim_add_outputs lib psbt (Tx.outs tx).

(** Steps 4 and 5: signature request, finalization, broadcast. *)
Definition claimAll_sign (psbt : Psbt.t) : M unit :=
  signedPsbtHex ← window_unisat_signPsbt (Psbt_toHex lib psbt);
  signedPsbt ← lift (Psbt_fromHex lib signedPsbtHex);
  finalized ← lift (Psbt_finalizeAllInputs lib signedPsbt);
  finalTx ← lift (extractTransaction lib finalized);
  log "簽名完成，正在廣播...";;
  txid ← window_unisat_pushTx (Transaction_toHex lib finalTx);
  log ("批量領取成功! TXID: " +:+ txid).

Definition claimAll : M unit :=
  w ← gets wallet;
  if negb (Js.nonempty (Wallet.publicKey w)) then mret tt
  else
    try_catch
      (log "正在請求批量領取...";;
       data ← fetch (PostClaimAll (Wallet.publicKey w))
                    (claim_all backend (Wallet.publicKey w));
       if String.eqb (claim_status data) "error" then
         log ("批量領取失敗: " +:+ claim_message data)
       else
         log "批量交易已建立! 正在組裝 PSBT...";;
         if negb (Js.nonempty (unsigned_tx_hex data)) then
           throw (Js.throw_new Js.Error "Backend returned empty transaction hex")
         else
           psbt ← lift (claimAll_build data);
           log "PSBT 組裝完成，請求錢包簽名...";;
           claimAll_sign psbt)
      (λ e, log ("批量領取失敗: " +:+ Js.message e)).

(** The states along a run of [claimAll]. *)
Definition claim_requested (s : State) : State :=
  with_effect (Fetch (PostClaimAll (Wallet.publicKey (wallet s))))
    (logged "正在請求批量領取..." s).

Definition claim_building (s : State) : State :=
  logged "批量交易已建立! 正在組裝 PSBT..." (claim_requested s).

Definition claim_built (s : State) : State :=
  logged "PSBT 組裝完成，請求錢包簽名..." (claim_building s).

Definition claim_asked (psbt : Psbt.t) (s : State) : State :=
  with_effect (WalletCall UniSat (SignPsbt (Psbt_toHex lib psbt)))
    (claim_built s).

Definition claim_pushed (tx : Tx.t) (s : State) : State :=
  with_effect (WalletCall UniSat (PushTx (Transaction_toHex lib tx)))
    (logged "簽名完成，正在廣播..." s).

Definition claim_done (txid : string) (s : State) : State :=
  logged ("批量領取成功! TXID: " +:+ txid) s.

Definition claim_failed (msg : string) (s : State) : State :=
  logged ("批量領取失敗: " +:+ msg) s.

End Script.

(** ** Specification vocabulary *)

(** [wp m Q s]: running [m] from [s] ends, with a result or an exception and
    in a state, that satisfy [Q]. *)
Definition wp {A} (m : M A) (Q : Exn + A → State → Prop) (s : State) : Prop :=
  Q (m s).1 (m s).2.

(** Everything of the contract but its log is the same. *)
Definition unchanged_but_logs (c c' : Contract.t) : Prop :=
  Contract.id c' = Contract.id c ∧
  Contract.address c' = Contract.address c ∧
  Contract.status c' = Contract.status c ∧
  Contract.tx_hex c' = Contract.tx_hex c ∧
  Contract.amount c' = Contract.amount c.



#[export] Instance byte_eq_dec : EqDecision Byte.byte := Byte.byte_eq_dec.

#[export] Instance same_prevout_dec a b : Decision (PsbtInput.same_prevout a b).
Proof. unfold PsbtInput.same_prevout. apply _. Defined.

(** The library refuses to add an input that spends a previous output
    already spent by an input of the PSBT (bitcoinjs-lib: "Duplicate input
    detected."). *)
Definition rejects_duplicate_inputs (lib : Lib) : Prop :=
  ∀ psbt input old,
    old ∈ Psbt.inputs psbt →
    PsbtInput.same_prevout old input →
    is_Some (addInput_rejects lib psbt input).

(** The PSBT has one input per metadata record, in the order of the records;
    record [k] names input [k] of the transaction, and PSBT input [k] is the
    one built from that input with the oracle's signature attached. *)
Definition in_order (lib : Lib) (tx : Tx.t) (metadata : list InputData.t) (psbt : Psbt.t)
  : Prop :=
  length (Psbt.inputs psbt) = length metadata ∧
  ∀ k inputData,
    metadata !! k = Some inputData →
    InputData.index inputData = Z.of_nat k ∧
    ∃ txin leaf o,
      Tx.ins tx !! k = Some txin ∧
      InputData.tapLeafScript inputData = Some leaf ∧
      InputData.oracleSig inputData = Some o ∧
      Psbt.inputs psbt !! k =
        Some (PsbtInput.add_tapScriptSig [oracle_sig lib o]
                (claim_input lib txin inputData leaf)).

(** ** A test double of the environment, for concrete runs *)

Module Demo.

Definition clock (n : nat) : string := "12:00:00".

Definition placeholder : bytes := [].
Definition oracleSig : bytes := [Byte.xaa; Byte.xbb].
Definition leafScript : bytes := [Byte.x20; Byte.xac].
Definition controlBlock : bytes := [Byte.xc0; Byte.x01].
Definition userSig : bytes := [Byte.x05; Byte.x06].
Definition scriptPubKey : bytes := [Byte.x51; Byte.x20].

(** The partial transaction of one contract: [ "", oracleSig, script,
    control ]. *)
Definition partial_tx : Tx.t :=
  Tx.mk 2 0
    [TxIn.mk [Byte.x11] 0 [] 4294967295
       [placeholder; oracleSig; leafScript; controlBlock]]
    [TxOut.mk scriptPubKey 1900].

Definition stack : list bytes :=
  [placeholder; oracleSig; leafScript; controlBlock].

(** The PSBT that steps 1 to 3 build for [partial_tx] and amount 1000. *)
Definition single_psbt : Psbt.t :=
  Psbt.mk
    [single_input (TxIn.mk [Byte.x11] 0 [] 4294967295 stack) scriptPubKey 2000
       (Some leafScript) (Some controlBlock)]
    [PsbtOutput.to_address "tb1quser" 1900].

(** The same with both signature slots already filled. *)
Definition full_tx : Tx.t :=
  Tx.mk 2 0
    [TxIn.mk [Byte.x11] 0 [] 4294967295
       [oracleSig; oracleSig; leafScript; controlBlock]]
    [TxOut.mk scriptPubKey 1900].

(** The unsigned skeleton of a batch claim with two inputs. *)
Definition unsigned_tx : Tx.t :=
  Tx.mk 2 0
    [TxIn.mk [Byte.x11] 0 [] 4294967295 [];
     TxIn.mk [Byte.x22] 1 [] 4294967295 []]
    [TxOut.mk scriptPubKey 3800].

Definition sig_of (s : bytes) : TapScriptSig.t :=
  TapScriptSig.mk [Byte.x02] s [Byte.x77].

Definition signed_input (sigs : list bytes) (hash : bytes) (index : Z)
  : PsbtInput.t :=
  PsbtInput.mk hash index scriptPubKey 2000
    [TapLeafScript.mk 192 (Some leafScript) (Some controlBlock)]
    (sig_of <$> sigs) None None.

(** What [Psbt.fromHex] makes of the wallet's answers. *)
Definition parse_psbt (h : string) : Exn + Psbt.t :=
  if String.eqb h "signed-single" then
    inr (Psbt.mk [signed_input [userSig] [Byte.x11] 0] [])
  else if String.eqb h "unsigned-single" then
    inr (Psbt.mk [signed_input [] [Byte.x11] 0] [])
  else if String.eqb h "signed-batch" then
    inr (Psbt.mk [signed_input [oracleSig; userSig] [Byte.x11] 0;
                  signed_input [oracleSig; userSig] [Byte.x22] 1] [])
  else if String.eqb h "half-signed-batch" then
    inr (Psbt.mk [signed_input [oracleSig; userSig] [Byte.x11] 0;
                  signed_input [oracleSig] [Byte.x22] 1] [])
  else inl (Js.throw_new Js.Error "Format Error: Invalid Magic Number").

(** A finalizer that wants two signatures on the leaf. *)
Definition finalize (input : PsbtInput.t) : Exn + list bytes :=
  match PsbtInput.tapScriptSig input with
  | a :: b :: _ =>
      inr [TapScriptSig.signature a; TapScriptSig.signature b;
           leafScript; controlBlock]
  | _ => inl (Js.throw_new Js.Error "Can not finalize taproot input")
  end.

Definition extract (psbt : Psbt.t) : Exn + Tx.t :=
  inr (Tx.mk 2 0
         ((λ i, TxIn.mk (PsbtInput.hash i) (PsbtInput.index i) [] 4294967295
                  (default [] (PsbtInput.finalScriptWitness i)))
            <$> Psbt.inputs psbt)
         [TxOut.mk scriptPubKey 3800]).

Definition duplicate (psbt : Psbt.t) (input : PsbtInput.t) : option Exn :=
  if bool_decide (Exists (λ old, PsbtInput.same_prevout old input)
                    (Psbt.inputs psbt))
  then Some (Js.throw_new Js.Error "Duplicate input detected.")
  else None.

Definition lib : Lib :=
  {| Transaction_fromHex h :=
       if String.eqb h "partial" then inr partial_tx
       else if String.eqb h "full" then inr full_tx
       else if String.eqb h "unsigned" then inr unsigned_tx
       else inl (Js.throw_new Js.Error "Invalid hex");
     Transaction_toHex tx :=
       "tx with " +:+ pretty (length (Tx.ins tx)) +:+ " inputs";
     address_toOutputScript a :=
       if String.prefix "tb1" a then inr scriptPubKey
       else inl (Js.throw_new Js.Error (a +:+ " has an invalid prefix"));
     address_fromOutputScript _ := inr "tb1quser";
     Psbt_toHex psbt :=
       "psbt with " +:+ pretty (length (Psbt.inputs psbt)) +:+ " inputs";
     Psbt_fromHex := parse_psbt;
     addInput_rejects := duplicate;
     updateInput_rejects _ _ _ := None;
     addOutput_rejects _ _ := None;
     finalizeInput := finalize;
     extractTransaction := extract;
     Buffer_from_hex := String.list_byte_of_string |}.

(** A wallet that answers every signature request with [answer], refuses
    to send coins and accepts every broadcast. *)
Definition wallet_answering (answer : string) : WalletApi :=
  {| sendBitcoin _ _ := inl (Js.throw_new Js.Error "User rejected the request.");
     signPsbt _ := inr answer;
     pushTx _ := inr "txid-1" |}.

Definition unisat_only (answer : string) : Window :=
  {| unisat := Some (wallet_answering answer); okxwallet_bitcoin := None |}.


Definition metadata (i : Z) : InputData.t :=
  InputData.mk i "5120" 2000
    (Some (InputData.mk_leaf 192 "20ac" "c001"))
    (Some (InputData.mk_sig "02" "aabb" "77")).

(** A backend that creates contract 42, whose cancel request fails or not,
    and that answers [/claim_all] with the given metadata. *)
Definition backend (cancel : Exn + unit) (inputs : list InputData.t) : Backend :=
  {| create_contract _ _ _ :=
       inr {| create_status := "success"; contract_id := Js.Num 42;
              deposit_address := "tb1pdeposit"; create_json := "{}" |};
     cancel_contract _ := cancel;
     claim_all _ :=
       inr {| claim_status := "success"; claim_message := "";
              unsigned_tx_hex := "unsigned"; psbt_inputs := Some inputs |} |}.

Definition connected (p : Provider) : Wallet.t :=
  Wallet.mk true "tb1quser" "02abcd" "wallet".

(** A session waiting for the user's signature on contract 42, as the
    script leaves it ([amount] was never assigned). *)
Definition waiting (tx_hex : string) (address : string) : State :=
  {| wallet := connected UniSat;
     contractForm := Form.mk 1000 "LONG";
     currentContract :=
       Contract.mk (Js.Num 42) address "WAITING_USER_SIG" tx_hex [] None;
     currentProvider := Some UniSat;
     trace := [] |}.

(** The same session if the contract object carried [amount: 1000]. *)
Definition waiting_with_amount (tx_hex : string) (address : string) : State :=
  {| wallet := connected UniSat;
     contractForm := Form.mk 1000 "LONG";
     currentContract :=
       Contract.mk (Js.Num 42) address "WAITING_USER_SIG" tx_hex [] (Some 1000%Z);
     currentProvider := Some UniSat;
     trace := [] |}.

(** A connected session without a contract. *)
Definition fresh (p : Provider) : State :=
  {| wallet := connected p;
     contractForm := Form.mk 1000 "LONG";
     currentContract := Contract.initial;
     currentProvider := Some p;
     trace := [] |}.

End Demo.

(** ** Further operations of the script *)

(** One element of [userContracts], as the history list shows it. *)
Module HistoryItem.
Record t := mk {
  id : Js.Val;
  direction : string;
  amount : Z;
  status : string;
  tx_hex : string
}.
End HistoryItem.

Section History.
Context (clock : nat → string) (lib : Lib) (window : Window).

(** The click handler of the history list's sign button:
    [currentContract.id = c.id; currentContract.tx_hex = c.tx_hex;
     currentContract.status = c.status; signAndBroadcast()]. *)
Definition sign_history_item (c : HistoryItem.t) : M unit :=
  modify_contract (Contract.set_id (HistoryItem.id c));;
  modify_contract (Contract.set_tx_hex (HistoryItem.tx_hex c));;
  modify_contract (Contract.set_status (HistoryItem.status c));;
  signAndBroadcast clock lib window.

End History.

(** [s.includes(sub)] *)
Definition includes (s sub : string) : bool :=
  match String.index 0 sub s with
  | Some _ => true
  | None => false
  end.

Section Legacy.
Context (clock : nat → string).

(** [signAndBroadcast] of the first variant of the file, which has no PSBT
    library: it shows the hex on the console and tells the user to sign
    elsewhere. *)
Definition signAndBroadcast_legacy : M unit :=
  c ← gets currentContract;
  if negb (Js.nonempty (Contract.tx_hex c)) then alert "No transaction to sign"
  else
    try_catch
      (log clock "正在請求錢包簽名...";;
       w ← gets wallet;
       (if includes (Wallet.name w) "UniSat" then
          try_catch
            (alert "請複製 Console 中的 Hex，使用支援 Raw Taproot 簽名的工具完成簽名並廣播。")
            (λ e, log clock ("簽名請求失敗: " +:+ Js.message e))
        else
          alert "請複製 Console 中的 Hex，使用支援 Raw Taproot 簽名的工具完成簽名並廣播。");;
       log clock "待簽名 Hex 已輸出至 Console")
      (λ e, log clock ("操作失敗: " +:+ Js.message e)).

End Legacy.

(** The requests of [matchContract], [refundContract] and [checkStatus]. *)
Inductive BackendCall :=
| PostMatch (contract_id : Js.Val)
| PostRefund (contract_id : Js.Val)
| GetContract (contract_id : Js.Val).

(** The session together with the requests of those three operations (most
    recent first). *)
Record Page := { session : State; calls : list BackendCall }.

Section Requests.
Context (clock : nat → string).

Definition page_log (msg : string) (p : Page) : Page :=
  {| session := logged clock msg (session p); calls := calls p |}.

Definition called (call : BackendCall) (p : Page) : Page :=
  {| session := session p; calls := call :: calls p |}.

(** [matchContract]; [answer id] is [JSON.stringify] of the backend's answer
    to [POST /match], or the exception of [fetch] or [res.json()]. *)
Definition matchContract (answer : Js.Val → Exn + string) (p : Page) : Page :=
  let id := Contract.id (currentContract (session p)) in
  if negb (Js.truthy id) then p
  else
    let p := called (PostMatch id) (page_log "請求 House 跟單..." p) in
    match answer id with
    | inr json => page_log ("Match 結果: " +:+ json) p
    | inl e => page_log ("Match 請求錯誤: " +:+ Js.message e) p
    end.

(** [refundContract] *)
Definition refundContract (answer : Js.Val → Exn + string) (p : Page) : Page :=
  let id := Contract.id (currentContract (session p)) in
  if negb (Js.truthy id) then p
  else
    let p := called (PostRefund id) (page_log "請求退款..." p) in
    match answer id with
    | inr json => page_log ("退款結果: " +:+ json) p
    | inl e => page_log ("退款請求錯誤: " +:+ Js.message e) p
    end.

(** [checkStatus] *)
Definition checkStatus (answer : Js.Val → Exn + string) (p : Page) : Page :=
  let id := Contract.id (currentContract (session p)) in
  if negb (Js.truthy id) then p
  else
    let p := called (GetContract id) p in
    match answer id with
    | inr json => page_log ("合約狀態: " +:+ json) p
    | inl e => page_log ("查詢失敗: " +:+ Js.message e) p
    end.

End Requests.


(** Two PSBT inputs that differ at most in their script-path signatures. *)
Definition same_but_sigs (a b : PsbtInput.t) : Prop :=
  PsbtInput.hash a = PsbtInput.hash b ∧
  PsbtInput.index a = PsbtInput.index b ∧
  PsbtInput.witnessUtxo_script a = PsbtInput.witnessUtxo_script b ∧
  PsbtInput.witnessUtxo_value a = PsbtInput.witnessUtxo_value b ∧
  PsbtInput.tapLeafScript a = PsbtInput.tapLeafScript b ∧
  PsbtInput.sighashType a = PsbtInput.sighashType b ∧
  PsbtInput.finalScriptWitness a = PsbtInput.finalScriptWitness b.

(** PSBT input [k] is the one that step 2.A builds for record [k], from the
    transaction input that the record's [index] names. *)
Definition built_from (lib : Lib) (tx : Tx.t) (metadata : list InputData.t)
    (psbt : Psbt.t) : Prop :=
  length (Psbt.inputs psbt) = length metadata ∧
  ∀ k inputData,
    metadata !! k = Some inputData →
    ∃ txin leaf input,
      Js.index (Tx.ins tx) (InputData.index inputData) = Some txin ∧
      InputData.tapLeafScript inputData = Some leaf ∧
      Psbt.inputs psbt !! k = Some input ∧
      same_but_sigs input (claim_input lib txin inputData leaf).

(** ** Further test doubles *)

Module Scenario.

(** A wallet that sends the deposit and signs. *)
Definition paying_wallet : WalletApi :=
  {| sendBitcoin _ _ := inr "txid-deposit";
     signPsbt _ := inr "signed-batch";
     pushTx _ := inr "txid-1" |}.

Definition paying_window : Window :=
  {| unisat := Some paying_wallet; okxwallet_bitcoin := None |}.

(** A backend that cannot be reached. *)
Definition offline : Backend :=
  {| create_contract _ _ _ := inl (Js.throw_new Js.TypeError "Failed to fetch");
     cancel_contract _ := inl (Js.throw_new Js.TypeError "Failed to fetch");
     claim_all _ := inl (Js.throw_new Js.TypeError "Failed to fetch") |}.

(** A backend whose contract has the id 0. *)
Definition zero_id : Backend :=
  {| create_contract _ _ _ :=
       inr {| create_status := "success"; contract_id := Js.Num 0;
              deposit_address := "tb1pdeposit"; create_json := "{}" |};
     cancel_contract _ := inr tt;
     claim_all _ := inl (Js.throw_new Js.TypeError "Failed to fetch") |}.

(** The answer of [/claim_all] when there is nothing to claim. *)
Definition nothing_to_claim : ClaimResponse :=
  {| claim_status := "error"; claim_message := "No winning contracts";
     unsigned_tx_hex := ""; psbt_inputs := None |}.

Definition refusing : Backend :=
  {| create_contract _ _ _ := inl (Js.throw_new Js.TypeError "Failed to fetch");
     cancel_contract _ := inr tt;
     claim_all _ := inr nothing_to_claim |}.

(** The answer of [/claim_all] for the two inputs of [Demo.unsigned_tx]. *)
Definition two_inputs : ClaimResponse :=
  {| claim_status := "success"; claim_message := "";
     unsigned_tx_hex := "unsigned";
     psbt_inputs := Some [Demo.metadata 0; Demo.metadata 1] |}.


(** A history item that waits for the user's signature. *)
Definition history_item : HistoryItem.t :=
  {| HistoryItem.id := Js.Num 7; HistoryItem.direction := "LONG";
     HistoryItem.amount := 1000; HistoryItem.status := "WAITING_USER_SIG";
     HistoryItem.tx_hex := "partial" |}.

End Scenario.

(** * Proofs *)

Arguments log_line : simpl never.
Arguments String.append : simpl never.
Arguments Js.nonempty : simpl never.
Arguments pretty : simpl never.

(** ** Rules for stepping through a computation *)

Section Rules.
Context {A B : Type}.
Implicit Types (s : State).

Lemma wp_run (m : M A) (P : State → Prop) s :
  wp m (λ _ s', P s') s → P (run m s).
Proof. done. Qed.

Lemma wp_of_run (m : M A) (P : State → Prop) s :
  P (run m s) → wp m (λ _ s', P s') s.
Proof. done. Qed.

Lemma wp_ret (x : A) Q s : Q (inr x) s → wp (mret x) Q s.
Proof. done. Qed.

Lemma wp_bind (m : M A) (f : A → M B) Q s :
  wp m (λ r s1, match r with
                | inl e => Q (inl e) s1
                | inr x => wp (f x) Q s1
                end) s →
  wp (m ≫= f) Q s.
Proof. unfold wp, mbind, M_bind. by destruct (m s) as [[e|x] s1]. Qed.

Lemma wp_try_catch (body : M A) (handler : Exn → M A) Q s :
  wp body (λ r s1, match r with
                   | inl e => wp (handler e) Q s1
                   | inr x => Q (inr x) s1
                   end) s →
  wp (try_catch body handler) Q s.
Proof. unfold wp, try_catch. by destruct (body s) as [[e|x] s1]. Qed.

Lemma wp_lift (r : Exn + A) Q s : Q r s → wp (lift r) Q s.
Proof. done. Qed.

Lemma wp_throw (e : Exn) (Q : Exn + A → State → Prop) s :
  Q (inl e) s → wp (throw e) Q s.
Proof. done. Qed.

Lemma wp_gets (f : State → A) Q s : Q (inr (f s)) s → wp (gets f) Q s.
Proof. done. Qed.

Lemma wp_defined prop (o : option A) Q s :
  match o with
  | Some x => Q (inr x) s
  | None => ∀ e, Q (inl e) s
  end →
  wp (defined prop o) Q s.
Proof. destruct o; [done|]. intros H. apply H. Qed.

Lemma wp_mono (m : M A) (Q Q' : Exn + A → State → Prop) s :
  (∀ r s', Q r s' → Q' r s') → wp m Q s → wp m Q' s.
Proof. unfold wp. auto. Qed.
End Rules.

Lemma wp_emit e Q s : Q (inr tt) (with_effect e s) → wp (emit e) Q s.
Proof. done. Qed.

Lemma wp_modify f Q s :
  Q (inr tt) (with_contract f s) → wp (modify_contract f) Q s.
Proof. done. Qed.

Lemma wp_log clock msg Q s :
  Q (inr tt) (logged clock msg s) → wp (log clock msg) Q s.
Proof. done. Qed.

Lemma wp_alert msg Q s :
  Q (inr tt) (with_effect (Alert msg) s) → wp (alert msg) Q s.
Proof. done. Qed.

Lemma wp_fetch {A} request (answer : Exn + A) Q s :
  Q answer (with_effect (Fetch request) s) → wp (fetch request answer) Q s.
Proof. intros H. unfold fetch. apply wp_bind, wp_emit. by destruct answer. Qed.

Lemma wp_wallet_call window via method call answer Q s :
  match provider_object window via with
  | None => ∀ e, Q (inl e) s
  | Some api => Q (answer api) (with_effect (WalletCall via call) s)
  end →
  wp (wallet_call window via method call answer) Q s.
Proof.
  unfold wallet_call. destruct (provider_object window via) as [api|].
  - intros H. apply wp_bind, wp_emit. by destruct (answer api).
  - intros H. apply H.
Qed.

(** One step of symbolic execution; a call whose answer is unknown splits
    into its two outcomes. *)
Ltac wp_step :=
  lazymatch goal with
  | |- wp (mbind _ _) _ _ => apply wp_bind
  | |- wp (mret _) _ _ => apply wp_ret
  | |- wp (try_catch _ _) _ _ => apply wp_try_catch
  | |- wp (lift ?r) _ _ => apply wp_lift; destruct r eqn:?
  | |- wp (throw _) _ _ => apply wp_throw
  | |- wp (gets _) _ _ => apply wp_gets
  | |- wp (defined _ ?o) _ _ =>
      apply wp_defined; destruct o eqn:?; [|intros ?]
  | |- wp (log _ _) _ _ => apply wp_log
  | |- wp (alert _) _ _ => apply wp_alert
  | |- wp (emit _) _ _ => apply wp_emit
  | |- wp (modify_contract _) _ _ => apply wp_modify
  | |- wp (fetch _ ?r) _ _ => apply wp_fetch; destruct r eqn:?
  | |- wp (wallet_call _ _ _ _ _) _ _ =>
      apply wp_wallet_call;
      let api := fresh "api" in
      destruct (provider_object _ _) as [api|] eqn:?;
      [ match goal with |- context [sendBitcoin api ?a ?n] =>
          destruct (sendBitcoin api a n) eqn:?
        | |- context [signPsbt api ?h] => destruct (signPsbt api h) eqn:?
        | |- context [pushTx api ?h] => destruct (pushTx api h) eqn:?
        end
      | intros ? ]
  | |- wp (match ?x with _ => _ end) _ _ => destruct x eqn:?
  | |- wp (let '(_, _) := ?x in _) _ _ => destruct x eqn:?
  end.

(** Two answers of the same call are the same answer. *)
Ltac unify_answers :=
  repeat match goal with
  | H1 : ?t = _, H2 : ?t = _ |- _ => rewrite H1 in H2; simplify_eq
  end.

Ltac wp_steps := repeat (wp_step; cbn beta iota; simplify_eq; unify_answers).

Ltac wp_start :=
  lazymatch goal with
  | |- context [run ?m ?s] => pattern (run m s); apply wp_run
  end.

(** ** The insertion loop *)

Lemma insert_loop_spec witness userSig n i :
  match insert_loop witness userSig i n with
  | (witness', true) =>
      ∃ k, i ≤ k < i + n ∧ witness !! k = Some [] ∧
           (∀ j, i ≤ j < k → witness !! j ≠ Some []) ∧
           witness' = <[k := userSig]> witness
  | (witness', false) =>
      witness' = witness ∧ ∀ j, i ≤ j < i + n → witness !! j ≠ Some []
  end.
Proof.
  revert i. induction n as [|n IH]; intros i; simpl.
  { split; [done|]. intros j ?. lia. }
  assert (Hnext : witness !! i ≠ Some [] →
    match insert_loop witness userSig (S i) n with
    | (witness', true) =>
        ∃ k, i ≤ k < i + S n ∧ witness !! k = Some [] ∧
             (∀ j, i ≤ j < k → witness !! j ≠ Some []) ∧
             witness' = <[k := userSig]> witness
    | (witness', false) =>
        witness' = witness ∧ ∀ j, i ≤ j < i + S n → witness !! j ≠ Some []
    end).
  { intros Hi. specialize (IH (S i)).
    destruct (insert_loop witness userSig (S i) n) as [w' [|]].
    - destruct IH as (k & ? & ? & Hmin & ->). exists k.
      split_and!; [lia|lia|done| |done].
      intros j ?. destruct (decide (j = i)) as [->|]; [done|]. apply Hmin. lia.
    - destruct IH as [-> Hnone]. split; [done|].
      intros j ?. destruct (decide (j = i)) as [->|]; [done|]. apply Hnone. lia. }
  destruct (witness !! i) as [[|b bs]|] eqn:Hi.
  - exists i. split_and!; [lia|lia|done| |done]. intros j ?. lia.
  - by apply Hnext.
  - by apply Hnext.
Qed.

(** The loop fills the first empty slot below the last two, or reports that
    there is none and leaves the stack alone. *)
Lemma insert_signature_spec witness userSig :
  match insert_signature witness userSig with
  | (witness', true) =>
      ∃ k, k < length witness - 2 ∧ witness !! k = Some [] ∧
           (∀ j, j < k → witness !! j ≠ Some []) ∧
           witness' = <[k := userSig]> witness
  | (witness', false) =>
      witness' = witness ∧ ∀ j, j < length witness - 2 → witness !! j ≠ Some []
  end.
Proof.
  unfold insert_signature.
  replace (Z.to_nat (Z.of_nat (length witness) - 2)) with (length witness - 2) by lia.
  pose proof (insert_loop_spec witness userSig (length witness - 2) 0) as H.
  destruct (insert_loop witness userSig 0 (length witness - 2)) as [w' [|]].
  - destruct H as (k & ? & ? & Hmin & ->). exists k.
    split_and!; [lia|done| |done]. intros j ?. apply Hmin. lia.
  - destruct H as [-> Hnone]. split; [done|]. intros j ?. apply Hnone. lia.
Qed.

(** ** The single-contract signing path *)

Section Signing.
Context (clock : nat → string) (lib : Lib) (window : Window).

Local Abbreviation logged := (logged clock).
Local Abbreviation failed := (failed clock).
Local Abbreviation asked := (asked clock lib).
Local Abbreviation pushed := (pushed clock lib).
Local Abbreviation settled := (settled clock).


(** The run when step 1, 2 or 3 throws: nothing but the two log entries. *)
Lemma signAndBroadcast_not_built s e :
  let c := currentContract s in
  Js.nonempty (Contract.tx_hex c) = true →
  Js.nonempty (Contract.address c) = true →
  signAndBroadcast_psbt lib c = inl e →
  run (signAndBroadcast clock lib window) s = failed e (logged "正在請求錢包簽名..." s).
Proof.
  intros c Htx Haddr Hpsbt.
  wp_start. unfold signAndBroadcast.
  wp_step. wp_step. fold c. rewrite Htx, Haddr. cbn [negb].
  by wp_steps.
Qed.
End Signing.

(** ** Steps 1 to 3 of the signing path *)

Section SigningPsbt.
Context (lib : Lib).

(** What a PSBT built by steps 1 to 3 says about the contract. *)
Lemma signAndBroadcast_psbt_inr c tx witness psbt :
  signAndBroadcast_psbt lib c = inr (tx, witness, psbt) →
  ∃ in0 rest a scriptPubKey,
    Transaction_fromHex lib (Contract.tx_hex c) = inr tx ∧
    Tx.ins tx = in0 :: rest ∧
    witness = TxIn.witness in0 ∧
    Contract.amount c = Some a ∧
    address_toOutputScript lib (Contract.address c) = inr scriptPubKey ∧
    Psbt.inputs psbt =
      [single_input in0 scriptPubKey (a * 2)
         (Js.index witness (Z.of_nat (length witness) - 2))
         (Js.index witness (Z.of_nat (length witness) - 1))].
Proof.
  unfold signAndBroadcast_psbt, mbind, Exn_bind, mret, Exn_ret.
  destruct (Transaction_fromHex lib (Contract.tx_hex c)) as [?|tx0]; [done|].
  destruct (Tx.ins tx0) as [|in0 rest] eqn:Hins; [done|]. cbn.
  destruct (Contract.amount c) as [a|]; [|done]. cbn.
  destruct (address_toOutputScript lib (Contract.address c)) as [?|spk]; [done|].
  unfold Psbt_addInput, Psbt_addOutput.
  destruct (addInput_rejects lib _ _); [done|]. cbn.
  destruct (Tx.outs tx0) as [|out0 ?]; [done|]. cbn.
  destruct (address_fromOutputScript lib _); [done|].
  destruct (addOutput_rejects lib _ _); [done|].
  intros [= <- <- <-]. by exists in0, rest, a, spk.
Qed.

(** Without an [amount] on the contract object, step 3 throws at [BigInt]. *)
Lemma signAndBroadcast_psbt_amount_undefined c tx in0 :
  Transaction_fromHex lib (Contract.tx_hex c) = inr tx →
  Tx.ins tx !! 0 = Some in0 →
  Contract.amount c = None →
  signAndBroadcast_psbt lib c =
    inl (Js.throw_new Js.RangeError
      "The number NaN cannot be converted to a BigInt because it is not an integer").
Proof.
  intros Htx Hin Ha. unfold signAndBroadcast_psbt, mbind, Exn_bind.
  by rewrite Htx, Hin, Ha.
Qed.


End SigningPsbt.


Section SigningOutcomes.
Context (clock : nat → string) (lib : Lib) (window : Window).

Local Abbreviation logged := (logged clock).
Local Abbreviation failed := (failed clock).
Local Abbreviation asked := (asked clock lib).
Local Abbreviation pushed := (pushed clock lib).
Local Abbreviation settled := (settled clock).

(** The run when the wallet's answer carries no script-path signature. *)
Lemma signAndBroadcast_unsigned
    s tx witness psbt api signedHex signedPsbt input0 :
  let c := currentContract s in
  Js.nonempty (Contract.tx_hex c) = true →
  Js.nonempty (Contract.address c) = true →
  signAndBroadcast_psbt lib c = inr (tx, witness, psbt) →
  unisat window = Some api →
  signPsbt api (Psbt_toHex lib psbt) = inr signedHex →
  Psbt_fromHex lib signedHex = inr signedPsbt →
  Psbt.inputs signedPsbt !! 0 = Some input0 →
  PsbtInput.tapScriptSig input0 = [] →
  run (signAndBroadcast clock lib window) s =
    failed (Js.throw_new Js.Error "No signature returned from wallet")
      (asked psbt s).
Proof.
  intros c Htx Haddr Hpsbt Hapi Hsign Hparse Hin Hsig.
  wp_start. unfold signAndBroadcast.
  wp_step. wp_step. fold c. rewrite Htx, Haddr. cbn [negb].
  unfold signAndBroadcast_signature, window_unisat_signPsbt.
  wp_steps.
  all: cbn [provider_object] in *; simplify_eq; unify_answers.
  done.
Qed.

(** Every way a run that passed the two guards can end. *)
Lemma signAndBroadcast_cases s :
  let c := currentContract s in
  Js.nonempty (Contract.tx_hex c) = true →
  Js.nonempty (Contract.address c) = true →
  let s' := run (signAndBroadcast clock lib window) s in
  (∃ e, s' = failed e (logged "正在請求錢包簽名..." s) ∧
        (is_Some (unisat window) → signAndBroadcast_psbt lib c = inl e))
  ∨ (∃ psbt api e, unisat window = Some api ∧ s' = failed e (asked psbt s))
  ∨ (∃ psbt api tx' e,
        unisat window = Some api ∧
        pushTx api (Transaction_toHex lib tx') = inl e ∧
        s' = failed e (pushed tx' (asked psbt s)))
  ∨ (∃ psbt api tx' txid,
        unisat window = Some api ∧
        pushTx api (Transaction_toHex lib tx') = inr txid ∧
        s' = settled txid (pushed tx' (asked psbt s))).
Proof.
  intros c Htx Haddr s'. subst s'.
  wp_start. unfold signAndBroadcast.
  wp_step. wp_step. fold c. rewrite Htx, Haddr. cbn [negb].
  unfold signAndBroadcast_signature, signAndBroadcast_broadcast,
    window_unisat_signPsbt, window_unisat_pushTx.
  wp_steps.
  all: cbn [provider_object] in *; simplify_eq; unify_answers.
  all: lazymatch goal with
       | |- (∃ e0, ?S = _ ∧ _) ∨ _ =>
           lazymatch S with
           | with_contract _ _ =>
               right; right; right; eexists _, _, _, _;
               split_and!; [eassumption|eassumption|reflexivity]
           | logged _ (with_effect (WalletCall UniSat (PushTx _)) _) =>
               right; right; left; eexists _, _, _, _;
               split_and!; [eassumption|eassumption|reflexivity]
           | logged _ (with_effect (WalletCall UniSat (SignPsbt _)) _) =>
               right; left; eexists _, _, _; split; [eassumption|reflexivity]
           | logged _ (logged _ _) =>
               left; eexists; split; [reflexivity|intros [? ?]; congruence]
           end
       end.
Qed.
End SigningOutcomes.

Section SigningClaims.
Context (clock : nat → string) (lib : Lib) (window : Window).

Local Abbreviation logged := (logged clock).
Local Abbreviation failed := (failed clock).
Local Abbreviation asked := (asked clock lib).
Local Abbreviation pushed := (pushed clock lib).
Local Abbreviation settled := (settled clock).



(** C5.  In a run of [signAndBroadcast] that passed its two guards: (a) if
    the PSBT returned by the wallet carries no script-path signature on its
    first input, the run ends in the [catch] block with the error "No
    signature returned from wallet" and nothing is broadcast; (b, c) the run
    ends either with the failure logged on top of the log and the rest of
    the contract (id, address, status, tx_hex) as it was, or with the
    status [SETTLED_WIN], and then the last effect is a broadcast request
    that the wallet answered with a transaction id. *)
Theorem signAndBroadcast_failure_leaves_contract s :
  let c := currentContract s in
  Js.nonempty (Contract.tx_hex c) = true →
  Js.nonempty (Contract.address c) = true →
  let s' := run (signAndBroadcast clock lib window) s in
  let c' := currentContract s' in
  (∀ tx witness psbt api signedHex signedPsbt input0,
     signAndBroadcast_psbt lib c = inr (tx, witness, psbt) →
     unisat window = Some api →
     signPsbt api (Psbt_toHex lib psbt) = inr signedHex →
     Psbt_fromHex lib signedHex = inr signedPsbt →
     Psbt.inputs signedPsbt !! 0 = Some input0 →
     PsbtInput.tapScriptSig input0 = [] →
     s' = failed (Js.throw_new Js.Error "No signature returned from wallet")
            (asked psbt s))
  ∧ ((∃ e older,
        Contract.logs c' =
          log_line clock (length older) ("簽名/廣播失敗: " +:+ Js.message e)
          :: older ∧
        unchanged_but_logs c c')
     ∨ (∃ api hex txid older,
          unisat window = Some api ∧
          pushTx api hex = inr txid ∧
          trace s' = WalletCall UniSat (PushTx hex) :: older ∧
          Contract.status c' = "SETTLED_WIN" ∧
          Contract.id c' = Contract.id c ∧
          Contract.address c' = Contract.address c ∧
          Contract.tx_hex c' = Contract.tx_hex c ∧
          Contract.amount c' = Contract.amount c)).
Proof.
  intros c Htx Haddr s' c'. split.
  { intros. by eapply signAndBroadcast_unsigned. }
  destruct (signAndBroadcast_cases clock lib window s Htx Haddr)
    as [(e & Hs & _)|[(psbt & api & e & _ & Hs)|
        [(psbt & api & tx' & e & _ & _ & Hs)
        |(psbt & api & tx' & txid & Hapi & Hpush & Hs)]]];
    subst c'; fold s' in Hs; rewrite Hs.
  - left. by eexists e, _.
  - left. by eexists e, _.
  - left. by eexists e, _.
  - right. by eexists api, _, txid, _.
Qed.


(** C1 (what the code does).  [signAndBroadcast] computes the witness-UTXO
    value as [BigInt(currentContract.amount * 2)], but the contract object
    has no [amount]: for a contract whose [amount] is undefined and whose
    partial transaction parses, the run throws the [RangeError] of
    [BigInt(NaN)] before any PSBT input exists; no wallet is asked and the
    failure is logged. *)
Theorem signAndBroadcast_without_amount s tx in0 :
  let c := currentContract s in
  Js.nonempty (Contract.tx_hex c) = true →
  Js.nonempty (Contract.address c) = true →
  Transaction_fromHex lib (Contract.tx_hex c) = inr tx →
  Tx.ins tx !! 0 = Some in0 →
  Contract.amount c = None →
  run (signAndBroadcast clock lib window) s =
    failed
      (Js.throw_new Js.RangeError
         "The number NaN cannot be converted to a BigInt because it is not an integer")
      (logged "正在請求錢包簽名..." s).
Proof.
  intros c Htx Haddr H1 H2 H3.
  apply signAndBroadcast_not_built; [done..|].
  by eapply signAndBroadcast_psbt_amount_undefined.
Qed.

(** Had the object an [amount], the PSBT input would carry twice its value. *)
Lemma signAndBroadcast_psbt_value c tx witness psbt :
  signAndBroadcast_psbt lib c = inr (tx, witness, psbt) →
  ∃ a input,
    Contract.amount c = Some a ∧
    Psbt.inputs psbt = [input] ∧
    PsbtInput.witnessUtxo_value input = (a * 2)%Z.
Proof.
  intros H. apply signAndBroadcast_psbt_inr in H
    as (in0 & rest & a & spk & _ & _ & _ & Ha & _ & Hin).
  by eexists a, _.
Qed.
End SigningClaims.

(** ** The push-event handler *)

Section PushEvents.
Context (clock : nat → string).

(** C6 (amended).  An event whose [contract_id] is not [===] to the id of the
    tracked contract (or that arrives while no contract is tracked) changes
    nothing of [currentContract] but its log, which receives exactly one
    entry: id, address, status and tx_hex stay, and so do the wallet, the
    form and the trace.  A [MATCHED] event for the tracked contract sets the
    status to [MATCHED]; delivered a second time it leaves the status
    [MATCHED] and id, address and tx_hex as they were. *)
Theorem onmessage_untracked_only_logs s data :
  let c := currentContract s in
  (Js.truthy (Contract.id c)
     && Js.strict_eq (WsEvent.contract_id data) (Contract.id c) = false →
   let s' := run (onmessage clock data) s in
   unchanged_but_logs c (currentContract s') ∧
   Contract.logs (currentContract s') =
     log_line clock (length (Contract.logs c))
       ("[WS] 收到通知: " +:+ WsEvent.type data +:+ " - ID: "
        +:+ Js.display (WsEvent.contract_id data))
     :: Contract.logs c ∧
   s' = logged clock
          ("[WS] 收到通知: " +:+ WsEvent.type data +:+ " - ID: "
           +:+ Js.display (WsEvent.contract_id data)) s)
  ∧ (WsEvent.type data = "MATCHED" →
     Js.truthy (Contract.id c)
       && Js.strict_eq (WsEvent.contract_id data) (Contract.id c) = true →
     let s1 := run (onmessage clock data) s in
     let s2 := run (onmessage clock data) s1 in
     Contract.status (currentContract s1) = "MATCHED" ∧
     Contract.status (currentContract s2) = "MATCHED" ∧
     Contract.id (currentContract s2) = Contract.id c ∧
     Contract.address (currentContract s2) = Contract.address c ∧
     Contract.tx_hex (currentContract s2) = Contract.tx_hex c ∧
     Contract.amount (currentContract s2) = Contract.amount c).
Proof.
  intros c. split.
  - intros Hother s'. subst s'.
    assert (run (onmessage clock data) s =
            logged clock
              ("[WS] 收到通知: " +:+ WsEvent.type data +:+ " - ID: "
               +:+ Js.display (WsEvent.contract_id data)) s) as ->; [|done].
    wp_start. unfold onmessage. wp_step. wp_step. wp_step. wp_step.
    cbn [logged run log modify_contract with_contract currentContract snd
         Contract.id Contract.set_logs].
    fold c. rewrite Hother. by wp_step.
  - intros Htype Htracked s1 s2.
    assert (Hs1 : s1 =
      logged clock "House 已跟單！合約生效中。"
        (with_contract (Contract.set_status "MATCHED")
           (logged clock
              ("[WS] 收到通知: " +:+ WsEvent.type data +:+ " - ID: "
               +:+ Js.display (WsEvent.contract_id data)) s))).
    { subst s1. wp_start. unfold onmessage. wp_step. wp_step. wp_step. wp_step.
      cbn [logged run log modify_contract with_contract currentContract snd
           Contract.id Contract.set_logs].
      fold c. rewrite Htracked, Htype. cbn [String.eqb Ascii.eqb Bool.eqb].
      by wp_steps. }
    assert (Hs2 : s2 =
      logged clock "House 已跟單！合約生效中。"
        (with_contract (Contract.set_status "MATCHED")
           (logged clock
              ("[WS] 收到通知: " +:+ WsEvent.type data +:+ " - ID: "
               +:+ Js.display (WsEvent.contract_id data)) s1))).
    { subst s2. wp_start. unfold onmessage. wp_step. wp_step. wp_step. wp_step.
      cbn [logged run log modify_contract with_contract currentContract snd
           Contract.id Contract.set_logs].
      rewrite Hs1 at 1 2.
      cbn [logged run log modify_contract with_contract currentContract snd
           Contract.id Contract.set_logs Contract.set_status].
      fold c. rewrite Htracked, Htype. cbn [String.eqb Ascii.eqb Bool.eqb].
      by wp_steps. }
    rewrite Hs2, Hs1. by split_and!.
Qed.
End PushEvents.

(** ** The create-and-deposit flow *)

Section Deposit.
Context (clock : nat → string) (window : Window) (backend : Backend).

(** The [catch] block of [createAndDeposit] while a contract is tracked. *)
Lemma createAndDeposit_cleanup_spec e s :
  let c := currentContract s in
  Js.truthy (Contract.id c) = true →
  let s' := run (createAndDeposit_cleanup clock backend e) s in
  let c' := currentContract s' in
  trace s' = Fetch (PostCancelContract (Contract.id c)) :: trace s ∧
  Contract.id c' = Js.Null ∧
  Contract.address c' = "" ∧
  Contract.status c' = "" ∧
  (∀ cleanupError,
     cancel_contract backend (Contract.id c) = inl cleanupError →
     ∃ older,
       Contract.logs c' =
         log_line clock (length older)
           ("清理合約失敗: " +:+ Js.message cleanupError) :: older).
Proof.
  intros c Htruthy s' c'. subst c' s'.
  wp_start. unfold createAndDeposit_cleanup.
  wp_step. wp_step. wp_step. wp_step. cbn beta iota.
  change (Contract.id (currentContract (logged clock _ s))) with (Contract.id c).
  rewrite Htruthy.
  wp_steps.
  all: split_and!; try done; intros ce ?; simplify_eq; by eexists.
Qed.

(** C8.  When the backend has created a contract (status [success], an id
    that is truthy) and the deposit send then throws (the wallet rejects it,
    or there is no provider object to call), [createAndDeposit] posts
    [cancel_contract] with that id as its last request and ends with
    [currentContract.id = null], [address = ''] and [status = '']; if the
    cancel request itself fails, its error is on top of the log and the
    fields are cleared all the same. *)
Theorem createAndDeposit_cancels_failed_deposit s data :
  let w := wallet s in
  let form := contractForm s in
  Wallet.connected w = true →
  create_contract backend (Wallet.publicKey w) (Form.amount form)
    (Form.direction form) = inr data →
  create_status data = "success" →
  Js.truthy (contract_id data) = true →
  (∀ via api,
     currentProvider s = Some via →
     provider_object window via = Some api →
     ∃ e, sendBitcoin api (deposit_address data) (Form.amount form) = inl e) →
  let s' := run (createAndDeposit clock window backend) s in
  let c' := currentContract s' in
  (∃ sent,
     trace s' =
       Fetch (PostCancelContract (contract_id data)) :: sent ++
       Fetch (PostCreateContract (Wallet.publicKey w) (Form.amount form)
                (Form.direction form)) :: trace s ∧
     (sent = [] ∨
      ∃ via, sent = [WalletCall via
                       (SendBitcoin (deposit_address data) (Form.amount form))])) ∧
  Contract.id c' = Js.Null ∧
  Contract.address c' = "" ∧
  Contract.status c' = "" ∧
  (∀ cleanupError,
     cancel_contract backend (contract_id data) = inl cleanupError →
     ∃ older,
       Contract.logs c' =
         log_line clock (length older)
           ("清理合約失敗: " +:+ Js.message cleanupError) :: older).
Proof.
  intros w form Hconn Hcreate Hstatus Htruthy Hsend s' c'. subst c' s'.
  wp_start. unfold createAndDeposit.
  wp_step. wp_step. fold w. rewrite Hconn. cbn [negb].
  wp_step. wp_step. wp_step. cbn beta iota. wp_step. wp_step. cbn beta iota.
  wp_step. apply wp_fetch.
  change (contractForm (logged clock _ s)) with form.
  rewrite Hcreate. cbn beta iota.
  rewrite Hstatus. cbn [String.eqb Ascii.eqb Bool.eqb negb].
  unfold currentProvider_sendBitcoin.
  do 17 (wp_step; cbn beta iota).
  match goal with
  | |- wp (match currentProvider ?S with _ => _ end) _ _ =>
      change (currentProvider S) with (currentProvider s);
      change (Contract.address (currentContract S)) with (deposit_address data);
      set (s1 := S)
  end.
  assert (Hid : Js.truthy (Contract.id (currentContract s1)) = true) by done.
  assert (Hcleanup : ∀ e sent,
    (sent = [] ∨
     ∃ via, sent = [WalletCall via
                      (SendBitcoin (deposit_address data) (Form.amount form))]) →
    wp (createAndDeposit_cleanup clock backend e)
       (λ _ s',
          (∃ sent,
             trace s' =
               Fetch (PostCancelContract (contract_id data)) :: sent ++
               Fetch (PostCreateContract (Wallet.publicKey w) (Form.amount form)
                        (Form.direction form)) :: trace s ∧
             (sent = [] ∨
              ∃ via, sent = [WalletCall via
                               (SendBitcoin (deposit_address data)
                                  (Form.amount form))])) ∧
          Contract.id (currentContract s') = Js.Null ∧
          Contract.address (currentContract s') = "" ∧
          Contract.status (currentContract s') = "" ∧
          (∀ cleanupError,
             cancel_contract backend (contract_id data) = inl cleanupError →
             ∃ older,
               Contract.logs (currentContract s') =
                 log_line clock (length older)
                   ("清理合約失敗: " +:+ Js.message cleanupError) :: older))
       {| wallet := wallet s1; contractForm := contractForm s1;
          currentContract := currentContract s1;
          currentProvider := currentProvider s1;
          trace := sent ++ trace s1 |}).
  { intros e sent Hsent.
    set (s2 := {| wallet := wallet s1; contractForm := contractForm s1;
                  currentContract := currentContract s1;
                  currentProvider := currentProvider s1;
                  trace := sent ++ trace s1 |}).
    assert (Hid2 : Contract.id (currentContract s2) = contract_id data)
      by reflexivity.
    assert (Htrace2 : trace s2 =
              sent ++ Fetch (PostCreateContract (Wallet.publicKey w)
                               (Form.amount form) (Form.direction form))
                   :: trace s) by reflexivity.
    destruct (createAndDeposit_cleanup_spec e s2 Hid)
      as (Htrace & Hnull & Haddr & Hstatus' & Hlog).
    cbn zeta in Htrace, Hnull, Haddr, Hstatus', Hlog.
    rewrite Hid2 in Htrace, Hlog. rewrite Htrace2 in Htrace.
    apply wp_of_run. split_and!.
    - exists sent. by split.
    - exact Hnull.
    - exact Haddr.
    - exact Hstatus'.
    - exact Hlog. }
  destruct (currentProvider s) as [via|] eqn:Hvia.
  - apply wp_wallet_call.
    destruct (provider_object window via) as [api|] eqn:Hapi.
    + destruct (Hsend via api eq_refl Hapi) as [e ->].
      apply (Hcleanup e [_]). right. by eexists.
    + intros e. apply (Hcleanup e []). by left.
  - apply wp_throw. apply (Hcleanup _ []). by left.
Qed.
End Deposit.

(** ** The batch PSBT builder *)

Section BatchBuilder.
Context (lib : Lib).

Lemma index_Some {A} (l : list A) (i : Z) (x : A) :
  Js.index l i = Some x ↔ (0 ≤ i)%Z ∧ l !! Z.to_nat i = Some x.
Proof.
  unfold Js.index. destruct (i <? 0)%Z eqn:Hi.
  - apply Z.ltb_lt in Hi. split; [done|]. intros [? _]. lia.
  - apply Z.ltb_ge in Hi. split; [by intros ?|by intros [_ ?]].
Qed.

(** One iteration of the loop keeps the inputs in order, provided the
    library refuses a previous output that the PSBT already spends. *)
Lemma claim_add_input_in_order tx processed psbt inputData psbt' :
  rejects_duplicate_inputs lib →
  in_order lib tx processed psbt →
  claim_add_input lib tx psbt inputData = inr psbt' →
  in_order lib tx (processed ++ [inputData]) psbt'.
Proof.
  intros Hdup [Hlen Hin] Hadd.
  unfold claim_add_input, mbind, Exn_bind in Hadd.
  destruct (Js.index (Tx.ins tx) (InputData.index inputData))
    as [txin|] eqn:Htxin; [|done]. cbn in Hadd.
  destruct (InputData.tapLeafScript inputData) as [leaf|] eqn:Hleaf; [|done].
  cbn in Hadd. unfold Psbt_addInput in Hadd.
  destruct (addInput_rejects lib psbt _) as [|] eqn:Hrej; [done|].
  destruct (InputData.oracleSig inputData) as [o|] eqn:Ho; [|done].
  cbn in Hadd. unfold Psbt_updateInput in Hadd. cbn in Hadd.
  destruct (Js.index (Psbt.inputs psbt ++ [claim_input lib txin inputData leaf])
              (InputData.index inputData)) as [input|] eqn:Hinput; [|done].
  destruct (updateInput_rejects lib _ _ _); [done|].
  injection Hadd as <-.
  apply index_Some in Htxin as [Hpos Htxin].
  apply index_Some in Hinput as [_ Hinput].
  set (i := Z.to_nat (InputData.index inputData)) in *.
  assert (Hi : i = length processed).
  { apply lookup_lt_Some in Hinput as Hlt. rewrite length_app in Hlt. cbn in Hlt.
    destruct (decide (i = length processed)) as [|Hne]; [done|]. exfalso.
    assert (Hlt' : i < length processed) by lia.
    destruct (lookup_lt_is_Some_2 processed i Hlt') as [old Hold].
    destruct (Hin i old Hold) as (_ & txin' & leaf' & o' & Htx' & _ & _ & Hold').
    assert (txin' = txin) as -> by congruence.
    destruct (Hdup psbt (claim_input lib txin inputData leaf) _
                ltac:(by eapply list_elem_of_lookup_2) ltac:(by split))
      as [e He].
    congruence. }
  rewrite lookup_app_r in Hinput by lia.
  replace (i - length (Psbt.inputs psbt)) with 0 in Hinput by lia.
  injection Hinput as <-.
  split; cbn.
  - rewrite length_insert, !length_app. cbn. lia.
  - intros k md Hk.
    destruct (decide (k = length processed)) as [->|Hne].
    + rewrite lookup_app_r, Nat.sub_diag in Hk by lia. injection Hk as <-.
      split; [lia|]. exists txin, leaf, o. split_and!; [congruence|done..|].
      rewrite Hi, <- Hlen. rewrite list_lookup_insert_eq; [done|].
      rewrite length_app. cbn. lia.
    + assert (Hlt : k < length processed).
      { apply lookup_lt_Some in Hk. rewrite length_app in Hk. cbn in Hk. lia. }
      rewrite lookup_app_l in Hk by done.
      destruct (Hin k md Hk) as (? & txin' & leaf' & o' & ? & ? & ? & Hold).
      split; [done|]. exists txin', leaf', o'. split_and!; [done..|].
      rewrite list_lookup_insert_ne by lia.
      rewrite lookup_app_l by lia. done.
Qed.

Lemma claim_add_inputs_in_order tx rest : ∀ processed psbt psbt',
  rejects_duplicate_inputs lib →
  in_order lib tx processed psbt →
  claim_add_inputs lib tx psbt rest = inr psbt' →
  in_order lib tx (processed ++ rest) psbt'.
Proof.
  induction rest as [|inputData rest IH]; intros processed psbt psbt' Hdup Hin Hadd.
  - cbn in Hadd. simplify_eq. by rewrite app_nil_r.
  - cbn in Hadd. unfold mbind, Exn_bind in Hadd.
    destruct (claim_add_input lib tx psbt inputData) as [|psbt1] eqn:Hone; [done|].
    replace (processed ++ inputData :: rest)
      with ((processed ++ [inputData]) ++ rest) by by rewrite <- app_assoc.
    eapply IH; [done| |done]. by eapply claim_add_input_in_order.
Qed.

(** Adding the outputs leaves the inputs alone. *)
Lemma claim_add_outputs_inputs outs : ∀ psbt psbt',
  claim_add_outputs lib psbt outs = inr psbt' →
  Psbt.inputs psbt' = Psbt.inputs psbt.
Proof.
  induction outs as [|out outs IH]; intros psbt psbt' Hadd.
  - by injection Hadd as <-.
  - cbn in Hadd. unfold mbind, Exn_bind, Psbt_addOutput in Hadd.
    destruct (addOutput_rejects lib psbt _); [done|].
    by rewrite (IH _ _ Hadd).
Qed.

(** The PSBT of a batch claim, when it is built. *)
Lemma claimAll_build_in_order data psbt :
  rejects_duplicate_inputs lib →
  claimAll_build lib data = inr psbt →
  ∃ tx metadata,
    Transaction_fromHex lib (unsigned_tx_hex data) = inr tx ∧
    psbt_inputs data = Some metadata ∧
    in_order lib tx metadata psbt.
Proof.
  intros Hdup Hbuild. unfold claimAll_build, mbind, Exn_bind in Hbuild.
  destruct (Transaction_fromHex lib (unsigned_tx_hex data)) as [|tx]; [done|].
  destruct (psbt_inputs data) as [metadata|]; [|done].
  destruct (claim_add_inputs lib tx Psbt.new metadata) as [|psbt1] eqn:Hin; [done|].
  exists tx, metadata. split_and!; [done..|].
  apply (claim_add_inputs_in_order tx metadata [] Psbt.new psbt1 Hdup) in Hin.
  - destruct Hin as [Hlen Hin]. apply claim_add_outputs_inputs in Hbuild.
    split; rewrite Hbuild; done.
  - split; [done|]. intros k md Hk. by rewrite lookup_nil in Hk.
Qed.
End BatchBuilder.

(** ** The batch claim *)

Section Finalization.
Context (lib : Lib).



End Finalization.

Section Batch.
Context (clock : nat → string) (lib : Lib) (window : Window) (backend : Backend).

Local Abbreviation logged := (logged clock).
Local Abbreviation claim_requested := (claim_requested clock).
Local Abbreviation claim_building := (claim_building clock).
Local Abbreviation claim_built := (claim_built clock).
Local Abbreviation claim_asked := (claim_asked clock lib).
Local Abbreviation claim_pushed := (claim_pushed clock lib).
Local Abbreviation claim_done := (claim_done clock).
Local Abbreviation claim_failed := (claim_failed clock).

(** Every way a run of [claimAll] that passed its guard can end: before any
    wallet call, between the signature request and the broadcast request, or
    after the broadcast request. *)
Lemma claimAll_cases s :
  let pk := Wallet.publicKey (wallet s) in
  Js.nonempty pk = true →
  let s' := run (claimAll clock lib window backend) s in
  (∃ msg s0,
     s' = claim_failed msg s0 ∧
     (s0 = claim_requested s ∨ s0 = claim_building s ∨ s0 = claim_built s) ∧
     (∀ data psbt,
        claim_all backend pk = inr data →
        String.eqb (claim_status data) "error" = false →
        Js.nonempty (unsigned_tx_hex data) = true →
        claimAll_build lib data = inr psbt →
        unisat window = None))
  ∨ (∃ data psbt api e,
       claim_all backend pk = inr data ∧
       claimAll_build lib data = inr psbt ∧
       unisat window = Some api ∧
       s' = claim_failed (Js.message e) (claim_asked psbt s) ∧
       (signPsbt api (Psbt_toHex lib psbt) = inl e ∨
        ∃ signedHex,
          signPsbt api (Psbt_toHex lib psbt) = inr signedHex ∧
          (Psbt_fromHex lib signedHex = inl e ∨
           ∃ signedPsbt,
             Psbt_fromHex lib signedHex = inr signedPsbt ∧
             (Psbt_finalizeAllInputs lib signedPsbt = inl e ∨
              ∃ finalized,
                Psbt_finalizeAllInputs lib signedPsbt = inr finalized ∧
                extractTransaction lib finalized = inl e))))
  ∨ (∃ data psbt api signedHex signedPsbt finalized finalTx,
       claim_all backend pk = inr data ∧
       claimAll_build lib data = inr psbt ∧
       unisat window = Some api ∧
       signPsbt api (Psbt_toHex lib psbt) = inr signedHex ∧
       Psbt_fromHex lib signedHex = inr signedPsbt ∧
       Psbt_finalizeAllInputs lib signedPsbt = inr finalized ∧
       extractTransaction lib finalized = inr finalTx ∧
       ((∃ e, pushTx api (Transaction_toHex lib finalTx) = inl e ∧
              s' = claim_failed (Js.message e)
                     (claim_pushed finalTx (claim_asked psbt s)))
        ∨ (∃ txid, pushTx api (Transaction_toHex lib finalTx) = inr txid ∧
                   s' = claim_done txid
                          (claim_pushed finalTx (claim_asked psbt s))))).
Proof.
  intros pk Hpk s'. subst s'.
  wp_start. unfold claimAll.
  wp_step. wp_step. fold pk. rewrite Hpk. cbn [negb].
  unfold claimAll_sign, window_unisat_signPsbt, window_unisat_pushTx.
  wp_steps.
  all: cbn [provider_object] in *; simplify_eq; unify_answers.
  all: lazymatch goal with
       | |- (∃ msg s0, ?S = _ ∧ _) ∨ _ =>
           lazymatch S with
           | logged _ (with_effect (WalletCall UniSat (PushTx _)) _) =>
               right; right; eexists _, _, _, _, _, _, _;
               split_and!; [reflexivity|eassumption..|];
               first [ left; eexists; split; [eassumption|reflexivity]
                     | right; eexists; split; [eassumption|reflexivity] ]
           | logged _ (with_effect (WalletCall UniSat (SignPsbt _)) _) =>
               right; left; eexists _, _, _, _;
               split_and!; [reflexivity|eassumption|eassumption|reflexivity|];
               eauto 12
           | _ =>
               left; eexists _, _; split; [reflexivity|];
               split;
               [ lazymatch S with
                 | logged _ (with_effect _ _) => left; reflexivity
                 | logged _ (logged _ (with_effect _ _)) =>
                     right; left; reflexivity
                 | _ => right; right; reflexivity
                 end
               | intros data psbt ????; simplify_eq; unify_answers;
                 first [ assumption | congruence
                       | match goal with
                         | H : negb ?b = true, H' : ?b = true |- _ =>
                             by rewrite H' in H
                         end ] ]
           end
       end.
Qed.
End Batch.

Section BatchClaims.
Context (clock : nat → string) (lib : Lib) (window : Window) (backend : Backend).

Local Abbreviation claim_requested := (claim_requested clock).
Local Abbreviation claim_asked := (claim_asked clock lib).
Local Abbreviation claim_failed := (claim_failed clock).

(** A run of [claimAll] that ends before any wallet call: the only effect is
    the request to the backend, and the failure is on top of the log. *)
Lemma claimAll_early_failure s msg s0 :
  run (claimAll clock lib window backend) s = claim_failed msg s0 →
  s0 = claim_requested s ∨ s0 = claim_building clock s ∨ s0 = claim_built clock s →
  let s' := run (claimAll clock lib window backend) s in
  trace s' = Fetch (PostClaimAll (Wallet.publicKey (wallet s))) :: trace s ∧
  unchanged_but_logs (currentContract s) (currentContract s') ∧
  ∃ older,
    Contract.logs (currentContract s') =
      log_line clock (length older) ("批量領取失敗: " +:+ msg) :: older.
Proof.
  intros Hs Hs0 s'. subst s'. rewrite Hs.
  destruct Hs0 as [->|[->| ->]]; (split_and!; [done|done|by eexists]).
Qed.

(** C2.  Provided the PSBT library refuses an input whose previous output
    the PSBT already spends: (a) the PSBT that [claimAll] builds has as many
    inputs as the backend sent metadata records, every record's [index] is
    its position in the list, and PSBT input [k] spends the previous output
    of the unsigned transaction's input [k] and carries the oracle's
    signature of record [k]; (b) if some record's [index] is not its
    position, the construction throws; (c) and then [claimAll] asks no
    wallet for anything: its only effect is the request to the backend, and
    the failure is on top of the log. *)
Theorem claimAll_inputs_follow_transaction :
  rejects_duplicate_inputs lib →
  (∀ data psbt,
     claimAll_build lib data = inr psbt →
     ∃ tx metadata,
       Transaction_fromHex lib (unsigned_tx_hex data) = inr tx ∧
       psbt_inputs data = Some metadata ∧
       length (Psbt.inputs psbt) = length metadata ∧
       ∀ k inputData,
         metadata !! k = Some inputData →
         InputData.index inputData = Z.of_nat k ∧
         ∃ txin input o,
           Tx.ins tx !! k = Some txin ∧
           Psbt.inputs psbt !! k = Some input ∧
           PsbtInput.hash input = TxIn.hash txin ∧
           PsbtInput.index input = TxIn.index txin ∧
           InputData.oracleSig inputData = Some o ∧
           PsbtInput.tapScriptSig input = [oracle_sig lib o])
  ∧ (∀ data metadata k inputData,
       psbt_inputs data = Some metadata →
       metadata !! k = Some inputData →
       InputData.index inputData ≠ Z.of_nat k →
       ∃ e, claimAll_build lib data = inl e)
  ∧ (∀ s data metadata k inputData,
       Js.nonempty (Wallet.publicKey (wallet s)) = true →
       claim_all backend (Wallet.publicKey (wallet s)) = inr data →
       psbt_inputs data = Some metadata →
       metadata !! k = Some inputData →
       InputData.index inputData ≠ Z.of_nat k →
       let s' := run (claimAll clock lib window backend) s in
       trace s' = Fetch (PostClaimAll (Wallet.publicKey (wallet s))) :: trace s ∧
       ∃ msg older,
         Contract.logs (currentContract s') =
           log_line clock (length older) ("批量領取失敗: " +:+ msg) :: older).
Proof.
  intros Hdup.
  assert (Hbuilt : ∀ data psbt,
    claimAll_build lib data = inr psbt →
    ∃ tx metadata,
      Transaction_fromHex lib (unsigned_tx_hex data) = inr tx ∧
      psbt_inputs data = Some metadata ∧
      length (Psbt.inputs psbt) = length metadata ∧
      ∀ k inputData,
        metadata !! k = Some inputData →
        InputData.index inputData = Z.of_nat k ∧
        ∃ txin input o,
          Tx.ins tx !! k = Some txin ∧
          Psbt.inputs psbt !! k = Some input ∧
          PsbtInput.hash input = TxIn.hash txin ∧
          PsbtInput.index input = TxIn.index txin ∧
          InputData.oracleSig inputData = Some o ∧
          PsbtInput.tapScriptSig input = [oracle_sig lib o]).
  { intros data psbt Hbuild.
    destruct (claimAll_build_in_order lib data psbt Hdup Hbuild)
      as (tx & metadata & Htx & Hmeta & Hlen & Hin).
    exists tx, metadata. split_and!; [done..|].
    intros k md Hk.
    destruct (Hin k md Hk) as (Hidx & txin & leaf & o & ? & ? & ? & Hinput).
    split; [done|]. by eexists txin, _, o. }
  assert (Hmismatch : ∀ data metadata k inputData,
    psbt_inputs data = Some metadata →
    metadata !! k = Some inputData →
    InputData.index inputData ≠ Z.of_nat k →
    ∃ e, claimAll_build lib data = inl e).
  { intros data metadata k md Hmeta Hk Hne.
    destruct (claimAll_build lib data) as [e|psbt] eqn:Hbuild; [by exists e|].
    destruct (Hbuilt data psbt Hbuild) as (tx & metadata' & _ & Hmeta' & _ & Hin).
    assert (metadata' = metadata) as -> by congruence.
    by destruct (Hin k md Hk) as [? _]. }
  split_and!; [done..|].
  intros s data metadata k md Hpk Hdata Hmeta Hk Hne s'.
  destruct (Hmismatch data metadata k md Hmeta Hk Hne) as [e He].
  destruct (claimAll_cases clock lib window backend s Hpk)
    as [(msg & s0 & Hs & Hs0 & _)
       |[(data' & psbt & ? & ? & Hdata' & Hbuild & _)
        |(data' & psbt & ? & ? & ? & ? & ? & Hdata' & Hbuild & _)]].
  - destruct (claimAll_early_failure s msg s0 Hs Hs0) as (? & _ & older & ?).
    split; [done|]. by exists msg, older.
  - congruence.
  - congruence.
Qed.

End BatchClaims.

(** ** The provider behind the two signing operations *)

Section Providers.
Context (clock : nat → string) (lib : Lib) (window : Window) (backend : Backend).

End Providers.

(** ** The contract object never gets an [amount] *)

Section Amount.
Context (clock : nat → string) (lib : Lib) (window : Window) (backend : Backend).

(** None of the four operations assigns [currentContract.amount]: it stays
    what it is in [Contract.initial], undefined. *)
Lemma amount_never_assigned s data :
  let a := Contract.amount (currentContract s) in
  Contract.amount (currentContract (run (onmessage clock data) s)) = a ∧
  Contract.amount
    (currentContract (run (createAndDeposit clock window backend) s)) = a ∧
  Contract.amount
    (currentContract (run (signAndBroadcast clock lib window) s)) = a ∧
  Contract.amount
    (currentContract (run (claimAll clock lib window backend) s)) = a.
Proof.
  intros a. subst a. split_and!.
  - wp_start. unfold onmessage. by wp_steps.
  - wp_start.
    unfold createAndDeposit, createAndDeposit_cleanup, currentProvider_sendBitcoin.
    by wp_steps.
  - wp_start.
    unfold signAndBroadcast, signAndBroadcast_signature,
      signAndBroadcast_broadcast, window_unisat_signPsbt, window_unisat_pushTx.
    by wp_steps.
  - wp_start.
    unfold claimAll, claimAll_sign, window_unisat_signPsbt, window_unisat_pushTx.
    by wp_steps.
Qed.
End Amount.

(** * Concrete runs against the test double *)

Lemma demo_lib_rejects_duplicates : rejects_duplicate_inputs Demo.lib.
Proof.
  intros psbt input old Hold Hsame. cbn. unfold Demo.duplicate.
  rewrite bool_decide_eq_true_2; [by eexists|].
  apply Exists_exists. by exists old.
Qed.

(** The run on the session as the script leaves it: [tx_hex] parses, the
    address is a test-network address, the wallet would sign, and yet the
    run ends at [BigInt(NaN)] without asking the wallet. *)
Lemma signAndBroadcast_without_amount_witness :
  let s := Demo.waiting "partial" "tb1pdeposit" in
  let s' := run (signAndBroadcast Demo.clock Demo.lib
                   (Demo.unisat_only "signed-single")) s in
  Contract.amount (currentContract s) = None ∧
  trace s' = [] ∧
  Contract.status (currentContract s') = "WAITING_USER_SIG" ∧
  Contract.logs (currentContract s') =
    ["[12:00:00] 簽名/廣播失敗: The number NaN cannot be converted to a BigInt because it is not an integer";
     "[12:00:00] 正在請求錢包簽名..."].
Proof.
  intros s s'.
  pose proof (signAndBroadcast_without_amount Demo.clock Demo.lib
                (Demo.unisat_only "signed-single") s Demo.partial_tx _
                eq_refl eq_refl eq_refl eq_refl eq_refl) as H.
  fold s' in H. rewrite H. by split_and!.
Defined.



Lemma signAndBroadcast_failure_leaves_contract_witness :
  let s := Demo.waiting_with_amount "partial" "tb1pdeposit" in
  let s' := run (signAndBroadcast Demo.clock Demo.lib
                   (Demo.unisat_only "unsigned-single")) s in
  Js.nonempty (Contract.tx_hex (currentContract s)) = true ∧
  Js.nonempty (Contract.address (currentContract s)) = true ∧
  trace s' = [WalletCall UniSat (SignPsbt "psbt with 1 inputs")] ∧
  Contract.status (currentContract s') = "WAITING_USER_SIG" ∧
  Contract.logs (currentContract s') =
    ["[12:00:00] 簽名/廣播失敗: No signature returned from wallet";
     "[12:00:00] 正在請求錢包簽名..."].
Proof.
  intros s s'. split; [reflexivity|]. split; [reflexivity|].
  destruct (signAndBroadcast_failure_leaves_contract Demo.clock Demo.lib
              (Demo.unisat_only "unsigned-single") s eq_refl eq_refl)
    as [Hunsigned _].
  specialize (Hunsigned Demo.partial_tx Demo.stack Demo.single_psbt
                (Demo.wallet_answering "unsigned-single") "unsigned-single"
                (Psbt.mk [Demo.signed_input [] [Byte.x11] 0] [])
                (Demo.signed_input [] [Byte.x11] 0)
                eq_refl eq_refl eq_refl eq_refl eq_refl eq_refl).
  fold s' in Hunsigned. rewrite Hunsigned. by split_and!.
Defined.


(** C6 as stated fails: an event for contract 7 while contract 42 is tracked
    does change [currentContract], whose [logs] receive the notification. *)
Lemma onmessage_mutates_currentContract :
  let s := Demo.waiting "partial" "tb1pdeposit" in
  let data := WsEvent.mk "MATCHED" (Js.Num 7) "" "" "" "" in
  Js.strict_eq (WsEvent.contract_id data) (Contract.id (currentContract s))
    = false ∧
  currentContract (run (onmessage Demo.clock data) s) ≠ currentContract s.
Proof.
  intros s data. split; [reflexivity|]. intros H.
  apply (f_equal Contract.logs) in H. discriminate H.
Qed.

Lemma onmessage_untracked_only_logs_witness :
  let s := Demo.waiting "partial" "tb1pdeposit" in
  let other := WsEvent.mk "SETTLED" (Js.Num 7) "SETTLED_LOSS" "" "" "" in
  let matched := WsEvent.mk "MATCHED" (Js.Num 42) "" "" "" "" in
  let s1 := run (onmessage Demo.clock matched) s in
  Contract.status (currentContract (run (onmessage Demo.clock other) s))
    = "WAITING_USER_SIG" ∧
  Contract.logs (currentContract (run (onmessage Demo.clock other) s))
    = ["[12:00:00] [WS] 收到通知: SETTLED - ID: 7"] ∧
  Contract.status (currentContract s1) = "MATCHED" ∧
  Contract.status (currentContract (run (onmessage Demo.clock matched) s1))
    = "MATCHED".
Proof.
  intros s other matched s1.
  destruct (onmessage_untracked_only_logs Demo.clock s other) as [Hother _].
  destruct (Hother eq_refl) as ((_ & _ & Hstatus & _) & Hlogs & _).
  destruct (onmessage_untracked_only_logs Demo.clock s matched) as [_ Hmatched].
  destruct (Hmatched eq_refl eq_refl) as (H1 & H2 & _).
  split_and!; [exact Hstatus|exact Hlogs|exact H1|exact H2].
Defined.

Lemma createAndDeposit_cancels_failed_deposit_witness :
  let backend :=
    Demo.backend (inl (Js.throw_new Js.TypeError "Failed to fetch")) [] in
  let s := Demo.fresh UniSat in
  let s' := run (createAndDeposit Demo.clock (Demo.unisat_only "") backend) s in
  Js.truthy (Js.Num 42) = true ∧
  trace s' =
    [Fetch (PostCancelContract (Js.Num 42));
     WalletCall UniSat (SendBitcoin "tb1pdeposit" 1000);
     Fetch (PostCreateContract "02abcd" 1000 "LONG")] ∧
  Contract.id (currentContract s') = Js.Null ∧
  Contract.address (currentContract s') = "" ∧
  Contract.status (currentContract s') = "" ∧
  ∃ older,
    Contract.logs (currentContract s') =
      log_line Demo.clock (length older) "清理合約失敗: Failed to fetch" :: older.
Proof.
  intros backend s s'. split; [reflexivity|].
  assert (Hsend : ∀ via api,
    currentProvider s = Some via →
    provider_object (Demo.unisat_only "") via = Some api →
    ∃ e, sendBitcoin api "tb1pdeposit" 1000 = inl e).
  { intros via api _ Hapi. destruct via; [|discriminate Hapi].
    injection Hapi as <-. by eexists. }
  destruct (createAndDeposit_cancels_failed_deposit Demo.clock
              (Demo.unisat_only "") backend s
              {| create_status := "success"; contract_id := Js.Num 42;
                 deposit_address := "tb1pdeposit"; create_json := "{}" |}
              eq_refl eq_refl eq_refl eq_refl Hsend)
    as (_ & Hid & Haddr & Hstatus & Hlog).
  split; [reflexivity|]. split_and!; [exact Hid|exact Haddr|exact Hstatus|].
  exact (Hlog _ eq_refl).
Defined.

Lemma claimAll_inputs_follow_transaction_witness :
  let swapped := [Demo.metadata 1; Demo.metadata 0] in
  let repeated := [Demo.metadata 0; Demo.metadata 0] in
  let answer l :=
    {| claim_status := "success"; claim_message := "";
       unsigned_tx_hex := "unsigned"; psbt_inputs := Some l |} in
  rejects_duplicate_inputs Demo.lib ∧
  (∃ psbt, claimAll_build Demo.lib (answer [Demo.metadata 0; Demo.metadata 1])
             = inr psbt ∧
           length (Psbt.inputs psbt) = 2) ∧
  (∃ e, claimAll_build Demo.lib (answer swapped) = inl e) ∧
  (∃ e, claimAll_build Demo.lib (answer repeated) = inl e) ∧
  trace (run (claimAll Demo.clock Demo.lib (Demo.unisat_only "signed-batch")
                (Demo.backend (inr tt) repeated)) (Demo.fresh UniSat))
    = [Fetch (PostClaimAll "02abcd")].
Proof.
  intros swapped repeated answer.
  destruct (claimAll_inputs_follow_transaction Demo.clock Demo.lib
              (Demo.unisat_only "signed-batch") (Demo.backend (inr tt) repeated)
              demo_lib_rejects_duplicates)
    as (Hbuilt & Hmismatch & Hrun).
  split; [exact demo_lib_rejects_duplicates|]. split_and!.
  - destruct (claimAll_build Demo.lib (answer [Demo.metadata 0; Demo.metadata 1]))
      as [e|psbt] eqn:Hbuild; [discriminate Hbuild|].
    exists psbt. split; [done|].
    destruct (Hbuilt _ _ Hbuild) as (tx & metadata & _ & Hmeta & Hlen & _).
    injection Hmeta as <-. exact Hlen.
  - apply (Hmismatch (answer swapped) swapped 0 (Demo.metadata 1));
      [reflexivity|reflexivity|discriminate].
  - apply (Hmismatch (answer repeated) repeated 1 (Demo.metadata 0));
      [reflexivity|reflexivity|discriminate].
  - destruct (Hrun (Demo.fresh UniSat) (answer repeated) repeated 1
                (Demo.metadata 0) eq_refl eq_refl eq_refl eq_refl
                ltac:(discriminate)) as [Htrace _].
    exact Htrace.
Defined.



(** * Further properties of the script *)

(** ** The sessions the page can be in *)





(** ** The sign button of the history list *)

(** X2.  The sign button of the history list copies the item's id, tx_hex
    and status into [currentContract] but not an address: while
    [currentContract.address] is empty (no contract was created in this
    session), the click ends in an alert of one of the two guards, without a
    log entry and without any call to a wallet. *)
Theorem sign_history_item_needs_address clock lib window s item :
  Contract.address (currentContract s) = "" →
  let s' := run (sign_history_item clock lib window item) s in
  trace s' =
    Alert (if Js.nonempty (HistoryItem.tx_hex item)
           then "Contract address missing" else "No transaction to sign")
    :: trace s ∧
  currentContract s' =
    Contract.set_status (HistoryItem.status item)
      (Contract.set_tx_hex (HistoryItem.tx_hex item)
         (Contract.set_id (HistoryItem.id item) (currentContract s))).
Proof.
  intros Haddr s'. subst s'. wp_start. unfold sign_history_item, signAndBroadcast.
  do 8 (wp_step; cbn beta iota).
  cbn [currentContract with_contract Contract.tx_hex Contract.set_status
       Contract.set_tx_hex Contract.set_id Contract.address].
  rewrite Haddr.
  destruct (Js.nonempty (HistoryItem.tx_hex item)); cbn [negb]; by wp_step.
Qed.

(** ** The first variant of [signAndBroadcast] *)

(** X3.  The first variant of [signAndBroadcast] signs nothing: with a
    pending transaction it writes two log entries around one alert, whatever
    the name of the connected wallet; without one it only alerts.  It adds
    no other effect and never changes the contract's status. *)
Theorem signAndBroadcast_legacy_only_alerts clock s :
  let s' := run (signAndBroadcast_legacy clock) s in
  if Js.nonempty (Contract.tx_hex (currentContract s)) then
    s' = logged clock "待簽名 Hex 已輸出至 Console"
           (with_effect
              (Alert "請複製 Console 中的 Hex，使用支援 Raw Taproot 簽名的工具完成簽名並廣播。")
              (logged clock "正在請求錢包簽名..." s))
  else s' = with_effect (Alert "No transaction to sign") s.
Proof.
  intros s'. subst s'. wp_start. unfold signAndBroadcast_legacy.
  wp_step. wp_step.
  destruct (Js.nonempty (Contract.tx_hex (currentContract s))); cbn [negb];
    [|by wp_step].
  do 6 (wp_step; cbn beta iota).
  destruct (includes _ _); by wp_steps.
Qed.

(** ** The other ways through [createAndDeposit] *)

(** The steps of [createAndDeposit] up to the deposit, for a backend that
    created the contract. *)
Ltac deposit_prefix w form Hconn Hcreate Hstatus :=
  unfold createAndDeposit;
  wp_step; wp_step; fold w; rewrite Hconn; cbn [negb];
  wp_step; wp_step; wp_step; cbn beta iota; wp_step; wp_step; cbn beta iota;
  wp_step; apply wp_fetch;
  change (contractForm (logged _ _ _)) with form;
  rewrite Hcreate; cbn beta iota;
  rewrite Hstatus; cbn [String.eqb Ascii.eqb Bool.eqb negb];
  unfold currentProvider_sendBitcoin;
  do 17 (wp_step; cbn beta iota).

Section DepositPaths.
Context (clock : nat → string) (window : Window) (backend : Backend).


(** X5.  [createAndDeposit] without a connected wallet only alerts; with a
    backend that answers anything but status [success] it logs the answer
    and stops: no wallet is asked, no cancel request is posted, and the
    contract keeps its id, address, status and tx_hex. *)
Theorem createAndDeposit_refused s :
  let w := wallet s in
  let form := contractForm s in
  let s' := run (createAndDeposit clock window backend) s in
  (Wallet.connected w = false → s' = with_effect (Alert "請先連接錢包") s) ∧
  (∀ data,
     Wallet.connected w = true →
     create_contract backend (Wallet.publicKey w) (Form.amount form)
       (Form.direction form) = inr data →
     String.eqb (create_status data) "success" = false →
     s' = logged clock ("建立失敗: " +:+ create_json data)
            (with_effect
               (Fetch (PostCreateContract (Wallet.publicKey w)
                         (Form.amount form) (Form.direction form)))
               (logged clock "1. 正在建立合約..." s))).
Proof.
  intros w form s'. subst s'. split.
  - intros Hconn. wp_start. unfold createAndDeposit. wp_step. wp_step.
    fold w. rewrite Hconn. by wp_step.
  - intros data Hconn Hcreate Hstatus. wp_start. unfold createAndDeposit.
    wp_step. wp_step. fold w. rewrite Hconn. cbn [negb].
    wp_step. wp_step. wp_step. cbn beta iota. wp_step. wp_step. cbn beta iota.
    wp_step. apply wp_fetch.
    change (contractForm (logged clock _ s)) with form.
    rewrite Hcreate. cbn beta iota. rewrite Hstatus. cbn [negb]. by wp_step.
Qed.

(** X6.  When the request to [/create_contract] itself fails, the [catch]
    block looks at whatever contract is tracked at that moment: with none it
    only logs the error; with a contract tracked from before it posts
    [cancel_contract] for that earlier contract and clears its id, address
    and status. *)
Theorem createAndDeposit_failed_request s e :
  let w := wallet s in
  let form := contractForm s in
  let c := currentContract s in
  Wallet.connected w = true →
  create_contract backend (Wallet.publicKey w) (Form.amount form)
    (Form.direction form) = inl e →
  let s' := run (createAndDeposit clock window backend) s in
  let created :=
    Fetch (PostCreateContract (Wallet.publicKey w) (Form.amount form)
             (Form.direction form)) in
  if Js.truthy (Contract.id c) then
    trace s' = Fetch (PostCancelContract (Contract.id c)) :: created :: trace s ∧
    Contract.id (currentContract s') = Js.Null ∧
    Contract.address (currentContract s') = "" ∧
    Contract.status (currentContract s') = ""
  else
    s' = logged clock ("流程錯誤: " +:+ Js.message e)
           (with_effect created (logged clock "1. 正在建立合約..." s)).
Proof.
  intros w form c Hconn Hcreate s' created. subst s'.
  wp_start. unfold createAndDeposit.
  wp_step. wp_step. fold w. rewrite Hconn. cbn [negb].
  wp_step. wp_step. wp_step. cbn beta iota. wp_step. wp_step. cbn beta iota.
  wp_step. apply wp_fetch.
  change (contractForm (logged clock _ s)) with form.
  rewrite Hcreate. cbn beta iota.
  destruct (Js.truthy (Contract.id c)) eqn:Htruthy.
  - apply wp_of_run.
    match goal with
    | |- context [run _ ?S] =>
        destruct (createAndDeposit_cleanup_spec clock backend e S Htruthy)
          as (Htrace & Hid & Haddr & Hstatus & _)
    end.
    by split_and!.
  - unfold createAndDeposit_cleanup. wp_step. wp_step. wp_step. wp_step.
    cbn beta iota.
    change (Contract.id (currentContract (logged clock _ _))) with (Contract.id c).
    rewrite Htruthy. by wp_step.
Qed.

(** X7.  The [catch] block recognises a created contract by a truthy id.
    When the backend's id is falsy (0, the empty string, null, absent) and
    the deposit send throws, no cancel request is posted and the contract
    fields stay as [createAndDeposit] set them: the id, the deposit address
    and the status [CREATED]. *)
Theorem createAndDeposit_falsy_id_not_cancelled s data :
  let w := wallet s in
  let form := contractForm s in
  Wallet.connected w = true →
  create_contract backend (Wallet.publicKey w) (Form.amount form)
    (Form.direction form) = inr data →
  create_status data = "success" →
  Js.truthy (contract_id data) = false →
  (∀ via api,
     currentProvider s = Some via →
     provider_object window via = Some api →
     ∃ e, sendBitcoin api (deposit_address data) (Form.amount form) = inl e) →
  let s' := run (createAndDeposit clock window backend) s in
  let c' := currentContract s' in
  (∃ sent,
     trace s' =
       sent ++
       Fetch (PostCreateContract (Wallet.publicKey w) (Form.amount form)
                (Form.direction form)) :: trace s ∧
     (sent = [] ∨
      ∃ via, sent = [WalletCall via
                       (SendBitcoin (deposit_address data) (Form.amount form))])) ∧
  Contract.id c' = contract_id data ∧
  Contract.address c' = deposit_address data ∧
  Contract.status c' = "CREATED".
Proof.
  intros w form Hconn Hcreate Hstatus Hfalsy Hsend s' c'. subst c' s'.
  wp_start. deposit_prefix w form Hconn Hcreate Hstatus.
  match goal with
  | |- wp (match currentProvider ?S with _ => _ end) _ _ =>
      change (currentProvider S) with (currentProvider s);
      change (Contract.address (currentContract S)) with (deposit_address data)
  end.
  assert (Hcleanup : ∀ e s1,
    Contract.id (currentContract s1) = contract_id data →
    run (createAndDeposit_cleanup clock backend e) s1 =
      logged clock ("流程錯誤: " +:+ Js.message e) s1).
  { intros e s1 Hid. wp_start. unfold createAndDeposit_cleanup.
    wp_step. wp_step. wp_step. wp_step. cbn beta iota.
    change (Contract.id (currentContract (logged clock _ s1)))
      with (Contract.id (currentContract s1)).
    rewrite Hid, Hfalsy. by wp_step. }
  destruct (currentProvider s) as [via|] eqn:Hvia.
  - apply wp_wallet_call.
    destruct (provider_object window via) as [api|] eqn:Hapi.
    + destruct (Hsend via api eq_refl Hapi) as [e ->].
      apply wp_of_run. rewrite Hcleanup by done.
      split_and!; [|done..].
      exists [WalletCall via
                (SendBitcoin (deposit_address data) (Form.amount form))].
      split; [done|]. right. by eexists.
    + intros e. apply wp_of_run. rewrite Hcleanup by done.
      split_and!; [|done..]. exists []. split; [done|]. by left.
  - apply wp_throw. apply wp_of_run. rewrite Hcleanup by done.
    split_and!; [|done..]. exists []. split; [done|]. by left.
Qed.
End DepositPaths.

(** ** The requests that only log *)

(** X8.  [matchContract], [refundContract] and [checkStatus] do nothing at
    all while no contract is tracked (the id is falsy); with a tracked
    contract each sends exactly one request, carrying that id, and only
    writes to the log: whatever the backend answers, the contract's id,
    address, status and tx_hex, the wallet and the trace stay as they
    were. *)
Theorem backend_requests_only_log clock answer p :
  let s := session p in
  let id := Contract.id (currentContract s) in
  let only_logs (p' : Page) (call : BackendCall) :=
    if Js.truthy id then
      calls p' = call :: calls p ∧
      trace (session p') = trace s ∧
      wallet (session p') = wallet s ∧
      unchanged_but_logs (currentContract s) (currentContract (session p'))
    else p' = p in
  only_logs (matchContract clock answer p) (PostMatch id) ∧
  only_logs (refundContract clock answer p) (PostRefund id) ∧
  only_logs (checkStatus clock answer p) (GetContract id).
Proof.
  intros s id only_logs. subst only_logs. cbn beta.
  unfold matchContract, refundContract, checkStatus. fold s id.
  destruct (Js.truthy id); cbn [negb]; [|done].
  split_and!; by destruct (answer id).
Qed.

(** ** The push handler, whatever the event *)

(** X9.  No event makes the handler change which contract is tracked or
    touch anything outside [currentContract]: the id, the address, the
    wallet, the form, the provider and the trace are the same after every
    event; [tx_hex] changes only on an [ACTION_REQUIRED] event. *)
Theorem onmessage_keeps_identity clock s data :
  let s' := run (onmessage clock data) s in
  wallet s' = wallet s ∧
  contractForm s' = contractForm s ∧
  currentProvider s' = currentProvider s ∧
  trace s' = trace s ∧
  Contract.id (currentContract s') = Contract.id (currentContract s) ∧
  Contract.address (currentContract s') = Contract.address (currentContract s) ∧
  (WsEvent.type data ≠ "ACTION_REQUIRED" →
   Contract.tx_hex (currentContract s') = Contract.tx_hex (currentContract s)).
Proof.
  intros s'. subst s'. wp_start. unfold onmessage. wp_steps.
  all: split_and!; try done.
  all: intros Hne;
       match goal with
       | H : String.eqb _ "ACTION_REQUIRED" = true |- _ =>
           by apply String.eqb_eq in H
       end.
Qed.

(** ** The log *)

(** X10.  The log is append-only: after any of the operations the log that
    was there before is still there, unchanged, below the new entries. *)
Theorem logs_only_grow clock lib window backend s data item :
  let before := Contract.logs (currentContract s) in
  let after (m : M unit) := Contract.logs (currentContract (run m s)) in
  before `suffix_of` after (onmessage clock data) ∧
  before `suffix_of` after (createAndDeposit clock window backend) ∧
  before `suffix_of` after (signAndBroadcast clock lib window) ∧
  before `suffix_of` after (sign_history_item clock lib window item) ∧
  before `suffix_of` after (claimAll clock lib window backend).
Proof.
  intros before after. subst before after. cbn beta.
  split_and!; wp_start.
  - unfold onmessage. wp_steps.
    all: repeat apply suffix_cons_r; done.
  - unfold createAndDeposit, createAndDeposit_cleanup, currentProvider_sendBitcoin.
    wp_steps.
    all: repeat apply suffix_cons_r; done.
  - unfold signAndBroadcast, signAndBroadcast_signature,
      signAndBroadcast_broadcast, window_unisat_signPsbt, window_unisat_pushTx.
    wp_steps.
    all: repeat apply suffix_cons_r; done.
  - unfold sign_history_item, signAndBroadcast, signAndBroadcast_signature,
      signAndBroadcast_broadcast, window_unisat_signPsbt, window_unisat_pushTx.
    wp_steps.
    all: repeat apply suffix_cons_r; done.
  - unfold claimAll, claimAll_sign, window_unisat_signPsbt, window_unisat_pushTx.
    wp_steps.
    all: repeat apply suffix_cons_r; done.
Qed.

(** ** More on the batch claim *)

Section BatchBuilt.
Context (lib : Lib).

Lemma same_but_sigs_add sigs input target :
  same_but_sigs input target →
  same_but_sigs (PsbtInput.add_tapScriptSig sigs input) target.
Proof. done. Qed.

(** One iteration appends the input built for the record, and touches the
    signatures of one input only. *)
Lemma claim_add_input_built tx processed psbt inputData psbt' :
  built_from lib tx processed psbt →
  claim_add_input lib tx psbt inputData = inr psbt' →
  built_from lib tx (processed ++ [inputData]) psbt' ∧
  Psbt.outputs psbt' = Psbt.outputs psbt.
Proof.
  intros [Hlen Hin] Hadd.
  unfold claim_add_input, mbind, Exn_bind in Hadd.
  destruct (Js.index (Tx.ins tx) (InputData.index inputData))
    as [txin|] eqn:Htxin; [|done]. cbn in Hadd.
  destruct (InputData.tapLeafScript inputData) as [leaf|] eqn:Hleaf; [|done].
  cbn in Hadd. unfold Psbt_addInput in Hadd.
  destruct (addInput_rejects lib psbt _); [done|].
  destruct (InputData.oracleSig inputData) as [o|]; [|done].
  cbn in Hadd. unfold Psbt_updateInput in Hadd. cbn in Hadd.
  destruct (Js.index (Psbt.inputs psbt ++ [claim_input lib txin inputData leaf])
              (InputData.index inputData)) as [target|] eqn:Htarget; [|done].
  destruct (updateInput_rejects lib _ _ _); [done|].
  injection Hadd as <-. cbn. split; [|done].
  apply index_Some in Htarget as [_ Htarget].
  set (i := Z.to_nat (InputData.index inputData)) in *.
  set (added := Psbt.inputs psbt ++ [claim_input lib txin inputData leaf]) in *.
  assert (Hadded : ∀ k md,
    (processed ++ [inputData]) !! k = Some md →
    ∃ txin' leaf' input,
      Js.index (Tx.ins tx) (InputData.index md) = Some txin' ∧
      InputData.tapLeafScript md = Some leaf' ∧
      added !! k = Some input ∧
      same_but_sigs input (claim_input lib txin' md leaf')).
  { intros k md Hk. subst added.
    destruct (decide (k = length processed)) as [->|Hne].
    - rewrite lookup_app_r, Nat.sub_diag in Hk by lia. injection Hk as <-.
      exists txin, leaf, (claim_input lib txin inputData leaf).
      split_and!; [done|done| |done].
      rewrite lookup_app_r, Hlen, Nat.sub_diag by lia. done.
    - assert (Hlt : k < length processed).
      { apply lookup_lt_Some in Hk. rewrite length_app in Hk. cbn in Hk. lia. }
      rewrite lookup_app_l in Hk by done.
      destruct (Hin k md Hk) as (txin' & leaf' & input & ? & ? & ? & ?).
      exists txin', leaf', input. split_and!; [done|done| |done].
      by rewrite lookup_app_l by lia. }
  split.
  - cbn [Psbt.inputs]. rewrite length_insert. subst added.
    rewrite !length_app. cbn. lia.
  - cbn [Psbt.inputs]. intros k md Hk.
    destruct (Hadded k md Hk) as (txin' & leaf' & input & ? & ? & Hinput & Hsame).
    destruct (decide (k = i)) as [->|Hne].
    + exists txin', leaf', (PsbtInput.add_tapScriptSig [oracle_sig lib o] input).
      split_and!; [done|done| |by apply same_but_sigs_add].
      rewrite list_lookup_insert_eq by by eapply lookup_lt_Some.
      congruence.
    + exists txin', leaf', input. split_and!; [done|done| |done].
      by rewrite list_lookup_insert_ne.
Qed.

Lemma claim_add_inputs_built tx rest : ∀ processed psbt psbt',
  built_from lib tx processed psbt →
  claim_add_inputs lib tx psbt rest = inr psbt' →
  built_from lib tx (processed ++ rest) psbt' ∧
  Psbt.outputs psbt' = Psbt.outputs psbt.
Proof.
  induction rest as [|inputData rest IH]; intros processed psbt psbt' Hin Hadd.
  - cbn in Hadd. simplify_eq. by rewrite app_nil_r.
  - cbn in Hadd. unfold mbind, Exn_bind in Hadd.
    destruct (claim_add_input lib tx psbt inputData) as [|psbt1] eqn:Hone; [done|].
    destruct (claim_add_input_built tx processed psbt inputData psbt1 Hin Hone)
      as [Hbuilt Hout].
    replace (processed ++ inputData :: rest)
      with ((processed ++ [inputData]) ++ rest) by by rewrite <- app_assoc.
    rewrite <- Hout. by eapply IH.
Qed.

(** The outputs are added in order, after those already there. *)
Lemma claim_add_outputs_outputs outs : ∀ psbt psbt',
  claim_add_outputs lib psbt outs = inr psbt' →
  Psbt.outputs psbt' =
    Psbt.outputs psbt ++
    ((λ out, PsbtOutput.to_script (TxOut.script out) (TxOut.value out)) <$> outs).
Proof.
  induction outs as [|out outs IH]; intros psbt psbt' Hadd.
  - cbn in Hadd. simplify_eq. by rewrite app_nil_r.
  - cbn in Hadd. unfold mbind, Exn_bind, Psbt_addOutput in Hadd.
    destruct (addOutput_rejects lib psbt _); [done|].
    rewrite (IH _ _ Hadd). cbn. by rewrite <- app_assoc.
Qed.

(** A record without leaf-script metadata or without the oracle's signature
    stops the loop. *)
Lemma claim_add_inputs_incomplete tx rest inputData : ∀ psbt,
  inputData ∈ rest →
  InputData.tapLeafScript inputData = None
    ∨ InputData.oracleSig inputData = None →
  ∃ e, claim_add_inputs lib tx psbt rest = inl e.
Proof.
  induction rest as [|head rest IH]; intros psbt Hin Hmissing.
  - by apply elem_of_nil in Hin.
  - cbn. unfold mbind, Exn_bind.
    destruct (claim_add_input lib tx psbt head) as [e|psbt1] eqn:Hone;
      [by exists e|].
    apply elem_of_cons in Hin as [->|Hin]; [|by apply IH].
    exfalso. unfold claim_add_input, mbind, Exn_bind in Hone.
    destruct (Js.index _ _); [|done]. cbn in Hone.
    destruct Hmissing as [Hm|Hm]; rewrite Hm in Hone; [done|].
    destruct (InputData.tapLeafScript head); [|done]. cbn in Hone.
    by destruct (Psbt_addInput lib psbt _).
Qed.

(** X11.  Whatever the library's own checks, a PSBT that [claimAll] has
    built has exactly one input per metadata record and the outputs of the
    unsigned transaction, in order, script and value unchanged; input [k]
    spends the previous output of the transaction input that record [k]
    names by its [index], and carries that record's witness UTXO (decoded
    scriptPubKey, value) and its leaf script, control block and leaf
    version. *)
Theorem claimAll_build_copies data psbt :
  claimAll_build lib data = inr psbt →
  ∃ tx metadata,
    Transaction_fromHex lib (unsigned_tx_hex data) = inr tx ∧
    psbt_inputs data = Some metadata ∧
    Psbt.outputs psbt =
      ((λ out, PsbtOutput.to_script (TxOut.script out) (TxOut.value out))
         <$> Tx.outs tx) ∧
    length (Psbt.inputs psbt) = length metadata ∧
    ∀ k inputData,
      metadata !! k = Some inputData →
      ∃ txin leaf input,
        Js.index (Tx.ins tx) (InputData.index inputData) = Some txin ∧
        InputData.tapLeafScript inputData = Some leaf ∧
        Psbt.inputs psbt !! k = Some input ∧
        PsbtInput.hash input = TxIn.hash txin ∧
        PsbtInput.index input = TxIn.index txin ∧
        PsbtInput.witnessUtxo_script input =
          Buffer_from_hex lib (InputData.scriptPubKey inputData) ∧
        PsbtInput.witnessUtxo_value input = InputData.value inputData ∧
        PsbtInput.tapLeafScript input =
          [TapLeafScript.mk (InputData.leafVersion leaf)
             (Some (Buffer_from_hex lib (InputData.script leaf)))
             (Some (Buffer_from_hex lib (InputData.controlBlock leaf)))].
Proof.
  intros Hbuild. unfold claimAll_build, mbind, Exn_bind in Hbuild.
  destruct (Transaction_fromHex lib (unsigned_tx_hex data)) as [|tx]; [done|].
  destruct (psbt_inputs data) as [metadata|]; [|done].
  destruct (claim_add_inputs lib tx Psbt.new metadata) as [|psbt1] eqn:Hin; [done|].
  exists tx, metadata.
  destruct (claim_add_inputs_built tx metadata [] Psbt.new psbt1) as [[Hlen Hk] Hout];
    [|done|].
  { split; [done|]. intros k md Hlook. by rewrite lookup_nil in Hlook. }
  pose proof (claim_add_outputs_outputs _ _ _ Hbuild) as Houts.
  pose proof (claim_add_outputs_inputs lib _ _ _ Hbuild) as Hins.
  rewrite Hout in Houts. rewrite Hins.
  split_and!; [done|done|exact Houts|exact Hlen|].
  intros k md Hlook.
  destruct (Hk k md Hlook)
    as (txin & leaf & input & ? & ? & ? & ? & ? & ? & ? & ? & _).
  by exists txin, leaf, input.
Qed.
End BatchBuilt.

Section BatchPaths.
Context (clock : nat → string) (lib : Lib) (window : Window) (backend : Backend).

(** X12.  [claimAll] never changes the contract, not even after a broadcast
    that succeeded: whatever happens, the id, address, status and tx_hex of
    [currentContract], the wallet, the form and the provider are as before;
    and without a public key it does nothing at all. *)
Theorem claimAll_leaves_contract s :
  let s' := run (claimAll clock lib window backend) s in
  unchanged_but_logs (currentContract s) (currentContract s') ∧
  wallet s' = wallet s ∧
  contractForm s' = contractForm s ∧
  currentProvider s' = currentProvider s ∧
  (Js.nonempty (Wallet.publicKey (wallet s)) = false → s' = s).
Proof.
  intros s'. subst s'. wp_start.
  unfold claimAll, claimAll_sign, window_unisat_signPsbt, window_unisat_pushTx.
  wp_steps.
  all: split_and!; try done.
  all: intros Hpk;
       match goal with
       | H : negb ?b = false, H' : ?b = false |- _ => by rewrite H' in H
       end.
Qed.

(** X13.  When the backend's answer has the status [error], or when one of
    its metadata records lacks the leaf-script metadata or the oracle's
    signature, [claimAll] ends before any wallet is asked: its only effect
    is the request to the backend and the failure is on top of the log (for
    the status [error], with the backend's own message). *)
Theorem claimAll_stops_before_wallet s data :
  let pk := Wallet.publicKey (wallet s) in
  Js.nonempty pk = true →
  claim_all backend pk = inr data →
  let s' := run (claimAll clock lib window backend) s in
  (String.eqb (claim_status data) "error" = true →
   s' = claim_failed clock (claim_message data) (claim_requested clock s)) ∧
  (∀ metadata inputData,
     psbt_inputs data = Some metadata →
     inputData ∈ metadata →
     InputData.tapLeafScript inputData = None
       ∨ InputData.oracleSig inputData = None →
     trace s' = Fetch (PostClaimAll pk) :: trace s ∧
     ∃ msg older,
       Contract.logs (currentContract s') =
         log_line clock (length older) ("批量領取失敗: " +:+ msg) :: older).
Proof.
  intros pk Hpk Hdata s'. split.
  - intros Herror. subst s'. wp_start. unfold claimAll.
    wp_step. wp_step. fold pk. rewrite Hpk. cbn [negb].
    wp_step. wp_step. wp_step. cbn beta iota. apply wp_bind, wp_fetch.
    rewrite Hdata. cbn beta iota. rewrite Herror. by wp_step.
  - intros metadata md Hmeta Hin Hmissing.
    assert (Hfail : ∃ e, claimAll_build lib data = inl e).
    { unfold claimAll_build, mbind, Exn_bind.
      destruct (Transaction_fromHex lib (unsigned_tx_hex data)) as [e|tx];
        [by exists e|].
      rewrite Hmeta.
      destruct (claim_add_inputs_incomplete lib tx metadata md Psbt.new
                  Hin Hmissing) as [e ->].
      by exists e. }
    destruct Hfail as [e He].
    destruct (claimAll_cases clock lib window backend s Hpk)
      as [(msg & s0 & Hs & Hs0 & _)
         |[(data' & psbt & ? & ? & Hdata' & Hbuild & _)
          |(data' & psbt & ? & ? & ? & ? & ? & Hdata' & Hbuild & _)]].
    + destruct (claimAll_early_failure clock lib window backend s msg s0 Hs Hs0)
        as (? & _ & older & ?).
      split; [done|]. by exists msg, older.
    + fold pk in Hdata'. congruence.
    + fold pk in Hdata'. congruence.
Qed.
End BatchPaths.

(** ** More on the single-contract PSBT and the witness stack *)


(** X15.  The insertion loop never changes the length of the stack and
    never writes to its last two elements (the leaf script and the control
    block); a stack of two elements or fewer is never signed; and a stack
    is reported unsigned exactly when none of the elements below the last
    two is empty. *)
Theorem insert_signature_keeps_script witness userSig :
  let result := insert_signature witness userSig in
  length result.1 = length witness ∧
  (∀ j, length witness - 2 ≤ j → result.1 !! j = witness !! j) ∧
  (length witness ≤ 2 → result = (witness, false)) ∧
  (result.2 = false ↔ ∀ j, j < length witness - 2 → witness !! j ≠ Some []).
Proof.
  intros result. subst result.
  pose proof (insert_signature_spec witness userSig) as H.
  destruct (insert_signature witness userSig) as [w' [|]]; cbn.
  - destruct H as (k & Hk & Hempty & Hmin & ->). split_and!.
    + by rewrite length_insert.
    + intros j Hj. apply list_lookup_insert_ne. lia.
    + lia.
    + split; [done|]. intros Hnone. by destruct (Hnone k Hk).
  - destruct H as [-> Hnone]. by split_and!.
Qed.

(** ** A batch claim that goes through *)

Section BatchSuccess.
Context (clock : nat → string) (lib : Lib) (window : Window) (backend : Backend).

(** X16.  When every step succeeds, [claimAll] asks [window.unisat] to sign
    the PSBT it built, finalizes and broadcasts what the wallet returned
    (the transaction is extracted from the wallet's PSBT, which the script
    does not compare with its own), and ends with the txid on top of five
    new log entries; when only the broadcast is refused, the failure is
    logged after the entry that announces the broadcast. *)
Theorem claimAll_success s data psbt api signedHex signedPsbt finalized finalTx :
  let pk := Wallet.publicKey (wallet s) in
  Js.nonempty pk = true →
  claim_all backend pk = inr data →
  String.eqb (claim_status data) "error" = false →
  Js.nonempty (unsigned_tx_hex data) = true →
  claimAll_build lib data = inr psbt →
  unisat window = Some api →
  signPsbt api (Psbt_toHex lib psbt) = inr signedHex →
  Psbt_fromHex lib signedHex = inr signedPsbt →
  Psbt_finalizeAllInputs lib signedPsbt = inr finalized →
  extractTransaction lib finalized = inr finalTx →
  let s' := run (claimAll clock lib window backend) s in
  (∀ txid,
     pushTx api (Transaction_toHex lib finalTx) = inr txid →
     s' = claim_done clock txid
            (claim_pushed clock lib finalTx (claim_asked clock lib psbt s))) ∧
  (∀ e,
     pushTx api (Transaction_toHex lib finalTx) = inl e →
     s' = claim_failed clock (Js.message e)
            (claim_pushed clock lib finalTx (claim_asked clock lib psbt s))).
Proof.
  intros pk Hpk Hdata Hstatus Hhex Hbuild Hapi Hsign Hparse Hfinal Hextract s'.
  subst s'.
  assert (Hrun : ∀ r,
    pushTx api (Transaction_toHex lib finalTx) = r →
    run (claimAll clock lib window backend) s =
      match r with
      | inr txid => claim_done clock txid
      | inl e => claim_failed clock (Js.message e)
      end (claim_pushed clock lib finalTx (claim_asked clock lib psbt s))).
  { intros r Hr. wp_start. unfold claimAll.
    wp_step. wp_step. fold pk. rewrite Hpk. cbn [negb].
    wp_step. wp_step. wp_step. cbn beta iota. apply wp_bind, wp_fetch.
    rewrite Hdata. cbn beta iota. rewrite Hstatus.
    wp_step. wp_step. cbn beta iota. rewrite Hhex. cbn [negb].
    wp_step. apply wp_lift. rewrite Hbuild. cbn beta iota.
    unfold claimAll_sign, window_unisat_signPsbt, window_unisat_pushTx.
    wp_steps.
    all: cbn [provider_object] in *; simplify_eq; unify_answers.
    all: try done.
    all: match goal with H : pushTx _ _ = _ |- _ => by rewrite H end. }
  split; intros r Hr; by rewrite (Hrun _ Hr).
Qed.
End BatchSuccess.

(** ** Concrete runs of the further properties *)


Lemma sign_history_item_needs_address_witness :
  let s := Demo.fresh UniSat in
  let s' := run (sign_history_item Demo.clock Demo.lib
                   (Demo.unisat_only "signed-single") Scenario.history_item) s in
  Contract.address (currentContract s) = "" ∧
  trace s' = [Alert "Contract address missing"] ∧
  Contract.id (currentContract s') = Js.Num 7 ∧
  Contract.logs (currentContract s') = [].
Proof.
  intros s s'.
  destruct (sign_history_item_needs_address Demo.clock Demo.lib
              (Demo.unisat_only "signed-single") s Scenario.history_item eq_refl)
    as [Htrace Hcontract].
  fold s' in Htrace, Hcontract.
  split; [reflexivity|]. split; [exact Htrace|].
  rewrite Hcontract. split; reflexivity.
Defined.


Lemma createAndDeposit_refused_witness :
  let s := Demo.fresh UniSat in
  let disconnected :=
    {| wallet := Wallet.mk false "" "" "";
       contractForm := contractForm s;
       currentContract := currentContract s;
       currentProvider := None; trace := [] |} in
  run (createAndDeposit Demo.clock Scenario.paying_window Scenario.offline)
      disconnected
    = with_effect (Alert "請先連接錢包") disconnected.
Proof.
  intros s disconnected.
  destruct (createAndDeposit_refused Demo.clock Scenario.paying_window
              Scenario.offline disconnected) as [Halert _].
  exact (Halert eq_refl).
Defined.

Lemma createAndDeposit_failed_request_witness :
  let s := Demo.waiting "partial" "tb1pdeposit" in
  let s' := run (createAndDeposit Demo.clock Scenario.paying_window
                   Scenario.offline) s in
  Contract.id (currentContract s) = Js.Num 42 ∧
  trace s' =
    [Fetch (PostCancelContract (Js.Num 42));
     Fetch (PostCreateContract "02abcd" 1000 "LONG")] ∧
  Contract.id (currentContract s') = Js.Null ∧
  Contract.address (currentContract s') = "" ∧
  Contract.status (currentContract s') = "".
Proof.
  intros s s'. split; [reflexivity|].
  exact (createAndDeposit_failed_request Demo.clock Scenario.paying_window
           Scenario.offline s (Js.throw_new Js.TypeError "Failed to fetch")
           eq_refl eq_refl).
Defined.

Lemma createAndDeposit_falsy_id_not_cancelled_witness :
  let s' := run (createAndDeposit Demo.clock (Demo.unisat_only "")
                   Scenario.zero_id) (Demo.fresh UniSat) in
  Js.truthy (Js.Num 0) = false ∧
  Forall (λ e, ∀ id, e ≠ Fetch (PostCancelContract id)) (trace s') ∧
  Contract.id (currentContract s') = Js.Num 0 ∧
  Contract.address (currentContract s') = "tb1pdeposit" ∧
  Contract.status (currentContract s') = "CREATED".
Proof.
  intros s'. split; [reflexivity|].
  assert (Hsend : ∀ via api,
    currentProvider (Demo.fresh UniSat) = Some via →
    provider_object (Demo.unisat_only "") via = Some api →
    ∃ e, sendBitcoin api "tb1pdeposit" 1000 = inl e).
  { intros via api _ Hapi. destruct via; [|discriminate Hapi].
    injection Hapi as <-. by eexists. }
  destruct (createAndDeposit_falsy_id_not_cancelled Demo.clock
              (Demo.unisat_only "") Scenario.zero_id (Demo.fresh UniSat)
              {| create_status := "success"; contract_id := Js.Num 0;
                 deposit_address := "tb1pdeposit"; create_json := "{}" |}
              eq_refl eq_refl eq_refl eq_refl Hsend)
    as ((sent & Htrace & Hsent) & Hid & Haddr & Hstatus).
  split_and!; [|exact Hid|exact Haddr|exact Hstatus].
  fold s' in Htrace. rewrite Htrace.
  destruct Hsent as [->|[via ->]]; repeat constructor; discriminate.
Defined.

Lemma onmessage_keeps_identity_witness :
  let s := Demo.waiting "partial" "tb1pdeposit" in
  let settled :=
    {| WsEvent.type := "SETTLED"; WsEvent.contract_id := Js.Num 42;
       WsEvent.result := "SETTLED_WIN"; WsEvent.status := "";
       WsEvent.tx_hex := ""; WsEvent.message := "" |} in
  let s' := run (onmessage Demo.clock settled) s in
  Contract.status (currentContract s') = "SETTLED_WIN" ∧
  Contract.id (currentContract s') = Js.Num 42 ∧
  Contract.tx_hex (currentContract s') = "partial".
Proof.
  intros s settled s'.
  destruct (onmessage_keeps_identity Demo.clock s settled)
    as (_ & _ & _ & _ & Hid & _ & Htx).
  split_and!; [reflexivity|exact Hid|].
  apply Htx. discriminate.
Defined.

Lemma claimAll_build_copies_witness :
  ∃ psbt,
    claimAll_build Demo.lib Scenario.two_inputs = inr psbt ∧
    length (Psbt.inputs psbt) = 2 ∧
    Psbt.outputs psbt = [PsbtOutput.to_script Demo.scriptPubKey 3800] ∧
    ∃ input,
      Psbt.inputs psbt !! 1 = Some input ∧
      PsbtInput.hash input = [Byte.x22] ∧
      PsbtInput.witnessUtxo_value input = 2000%Z.
Proof.
  destruct (claimAll_build Demo.lib Scenario.two_inputs) as [e|psbt] eqn:Hbuild;
    [discriminate Hbuild|].
  exists psbt. split; [reflexivity|].
  destruct (claimAll_build_copies Demo.lib Scenario.two_inputs psbt Hbuild)
    as (tx & metadata & Htx & Hmeta & Hout & Hlen & Hinputs).
  injection Htx as <-. injection Hmeta as <-.
  split_and!; [exact Hlen|exact Hout|].
  destruct (Hinputs 1 (Demo.metadata 1) eq_refl)
    as (txin & leaf & input & Htxin & _ & Hinput & Hhash & _ & _ & Hvalue & _).
  injection Htxin as <-.
  exists input. split_and!; [exact Hinput|exact Hhash|exact Hvalue].
Defined.

Lemma claimAll_leaves_contract_witness :
  let s := Demo.waiting "partial" "tb1pdeposit" in
  let s' := run (claimAll Demo.clock Demo.lib Scenario.paying_window
                   (Demo.backend (inr tt) [Demo.metadata 0; Demo.metadata 1])) s in
  trace s' =
    [WalletCall UniSat (PushTx "tx with 2 inputs");
     WalletCall UniSat (SignPsbt "psbt with 2 inputs");
     Fetch (PostClaimAll "02abcd")] ∧
  Contract.status (currentContract s') = "WAITING_USER_SIG" ∧
  Contract.tx_hex (currentContract s') = "partial".
Proof.
  intros s s'.
  destruct (claimAll_leaves_contract Demo.clock Demo.lib Scenario.paying_window
              (Demo.backend (inr tt) [Demo.metadata 0; Demo.metadata 1]) s)
    as ((_ & _ & Hstatus & Htx & _) & _).
  fold s' in Hstatus, Htx.
  split_and!; [reflexivity| |].
  - rewrite Hstatus. reflexivity.
  - rewrite Htx. reflexivity.
Defined.

Lemma claimAll_stops_before_wallet_witness :
  let s := Demo.fresh UniSat in
  let unsigned := InputData.mk 0 "5120" 2000
                    (Some (InputData.mk_leaf 192 "20ac" "c001")) None in
  run (claimAll Demo.clock Demo.lib Scenario.paying_window Scenario.refusing) s
    = claim_failed Demo.clock "No winning contracts"
        (claim_requested Demo.clock s) ∧
  trace (run (claimAll Demo.clock Demo.lib Scenario.paying_window
                (Demo.backend (inr tt) [unsigned])) s)
    = [Fetch (PostClaimAll "02abcd")].
Proof.
  intros s unsigned. split.
  - destruct (claimAll_stops_before_wallet Demo.clock Demo.lib
                Scenario.paying_window Scenario.refusing s
                Scenario.nothing_to_claim eq_refl eq_refl) as [Herror _].
    exact (Herror eq_refl).
  - destruct (claimAll_stops_before_wallet Demo.clock Demo.lib
                Scenario.paying_window (Demo.backend (inr tt) [unsigned]) s
                {| claim_status := "success"; claim_message := "";
                   unsigned_tx_hex := "unsigned";
                   psbt_inputs := Some [unsigned] |} eq_refl eq_refl)
      as [_ Hmissing].
    destruct (Hmissing [unsigned] unsigned eq_refl) as [Htrace _];
      [apply list_elem_of_here|right; reflexivity|exact Htrace].
Defined.


Lemma insert_signature_keeps_script_witness :
  insert_signature [Demo.placeholder; Demo.controlBlock] Demo.userSig
    = ([Demo.placeholder; Demo.controlBlock], false) ∧
  (insert_signature Demo.stack Demo.userSig).1 !! 2 = Some Demo.leafScript.
Proof.
  split.
  - destruct (insert_signature_keeps_script
                [Demo.placeholder; Demo.controlBlock] Demo.userSig)
      as (_ & _ & Hshort & _).
    apply Hshort. cbn. lia.
  - destruct (insert_signature_keeps_script Demo.stack Demo.userSig)
      as (_ & Hkept & _).
    rewrite (Hkept 2); [reflexivity|cbn; lia].
Defined.

Lemma claimAll_success_witness :
  let s := Demo.fresh UniSat in
  let s' := run (claimAll Demo.clock Demo.lib Scenario.paying_window
                   (Demo.backend (inr tt) [Demo.metadata 0; Demo.metadata 1])) s in
  trace s' =
    [WalletCall UniSat (PushTx "tx with 2 inputs");
     WalletCall UniSat (SignPsbt "psbt with 2 inputs");
     Fetch (PostClaimAll "02abcd")] ∧
  head (Contract.logs (currentContract s')) =
    Some (log_line Demo.clock 4 "批量領取成功! TXID: txid-1").
Proof.
  intros s s'.
  destruct (claimAll_build Demo.lib Scenario.two_inputs) as [e|psbt] eqn:Hbuild;
    [discriminate Hbuild|].
  destruct (Psbt_finalizeAllInputs Demo.lib
              (Psbt.mk [Demo.signed_input [Demo.oracleSig; Demo.userSig] [Byte.x11] 0;
                        Demo.signed_input [Demo.oracleSig; Demo.userSig] [Byte.x22] 1] []))
    as [e|finalized] eqn:Hfinal; [discriminate Hfinal|].
  destruct (Demo.extract finalized) as [e|finalTx] eqn:Hextract;
    [discriminate Hextract|].
  destruct (claimAll_success Demo.clock Demo.lib Scenario.paying_window
              (Demo.backend (inr tt) [Demo.metadata 0; Demo.metadata 1]) s
              Scenario.two_inputs psbt Scenario.paying_wallet "signed-batch"
              _ finalized finalTx
              eq_refl eq_refl eq_refl eq_refl Hbuild eq_refl eq_refl eq_refl
              Hfinal Hextract) as [Hdone _].
  fold s' in Hdone. rewrite (Hdone "txid-1" eq_refl).
  injection Hbuild as <-. injection Hextract as <-. injection Hfinal as <-.
  split; reflexivity.
Defined.
